(** * The tool-calling orchestration loop of the local LLM orchestrator

    A shallow embedding of [orchestrator/app/tools.py] (the tool registry)
    and [orchestrator/app/langgraph_agent.py] (the turn orchestrator), with
    the properties of one conversational turn.

    The language-model gateway, the vector store, the file system and the
    interpreter's own library functions ([json.dumps], [json.loads], [str])
    are collaborators: they are operations of a type class over an abstract
    world, so every theorem holds for every behaviour they may have. *)

From Stdlib Require Import String Ascii List ZArith Bool Lia DecimalString.
Import ListNotations.
Open Scope string_scope.
Open Scope Z_scope.
Set Warnings "-register-all".

(** ** Python values *)

(** JSON-shaped Python values ([Any] in the annotations of the source).
    A float is kept as the decimal literal [m * 10 ^ e]. *)
Inductive json : Type :=
| JNull
| JBool (b : bool)
| JInt (z : Z)
| JFloat (m e : Z)
| JStr (s : string)
| JList (items : list json)
| JDict (fields : list (string * json)).

(** Truth value of a Python object, as [if x:] tests it. *)
Definition py_truthy (v : json) : bool :=
  match v with
  | JNull => false
  | JBool b => b
  | JInt z => negb (z =? 0)
  | JFloat m _ => negb (m =? 0)
  | JStr s => negb (s =? "")%string
  | JList items => match items with [] => false | _ => true end
  | JDict fields => match fields with [] => false | _ => true end
  end.

(** [d.get(key)] on a dict kept as an association list. *)
Fixpoint dict_get {A : Type} (key : string) (d : list (string * A)) : option A :=
  match d with
  | [] => None
  | (k, v) :: rest => if (k =? key)%string then Some v else dict_get key rest
  end.

(** [key in d]. *)
Definition dict_has {A : Type} (key : string) (d : list (string * A)) : bool :=
  match dict_get key d with Some _ => true | None => false end.

(** Faults the interpreter and the libraries raise in the code below; the
    text of each ([str(e)]) is theirs.  [ValidationError] is the refusal
    by a [pydantic] model of the value given for one of its fields,
    [GraphRecursionError] the one the graph library raises for a run that
    has not ended within its limit of steps. *)
Inductive PyFault : Type :=
| KeyError (key : string)
| IndexError
| NotSubscriptable (v : json) (key : string)
| NotJsonText (v : json)
| Unhashable (v : json)
| NotAMapping (callee : string) (v : json)
| UnexpectedKeyword (callee kw : string)
| MultipleValues (callee kw : string)
| MissingArguments (callee : string) (names : list string)
| NotAPath (v : json)
| NotText (v : json)
| ValidationError (model field : string) (v : json)
| GraphRecursionError (limit : nat).

(** The result of running a piece of Python: a value, or an exception of
    class [Exception], kept as its text [str(e)]. *)
Inductive Outcome (A : Type) : Type :=
| Returned (a : A)
| Raised (text : string).
Arguments Returned {A} a.
Arguments Raised {A} text.

(** ** Effects: a world threaded through every call, and exceptions *)

Definition IO (World A : Type) : Type := World -> Outcome A * World.

Section Monad.
Context {World : Type}.

Definition ret {A} (a : A) : IO World A := fun w => (Returned a, w).

Definition raise {A} (text : string) : IO World A := fun w => (Raised text, w).

Definition bind {A B} (m : IO World A) (k : A -> IO World B) : IO World B :=
  fun w =>
    match m w with
    | (Returned a, w') => k a w'
    | (Raised text, w') => (Raised text, w')
    end.

(** [try: body  except Exception as e: handler(str(e))].  What the body
    did to the world before it raised stays done. *)
Definition try_except {A} (body : IO World A) (handler : string -> IO World A)
  : IO World A :=
  fun w =>
    match body w with
    | (Returned a, w') => (Returned a, w')
    | (Raised text, w') => handler text w'
    end.

(** A pure computation that may raise. *)
Definition lift {A} (o : Outcome A) : IO World A := fun w => (o, w).
End Monad.

Declare Scope io_scope.
Delimit Scope io_scope with io.
Notation "x <- m ;; k" := (bind m (fun x => k))
  (at level 61, m at next level, right associativity) : io_scope.
Notation "m ;;; k" := (bind m (fun _ => k))
  (at level 61, right associativity) : io_scope.
Open Scope io_scope.

(** ** Data model ([models.py] and the dicts of [langgraph_agent.py]) *)

(** [ChatMessage]: the caller's messages. *)
Record ChatMessage : Type := mkChatMessage {
  cm_role : string;
  cm_content : string
}.

(** One entry of [tool_calls] ([Dict[str, Any]]): the keys ["id"] and
    ["function"] may be absent; an id, when present, is a string. *)
Record ToolCall : Type := mkToolCall {
  tc_id : option string;
  tc_function : option json
}.

(** A message dict of the agent state.  [content] is [None] for Python's
    [None]; [tool_calls] and [tool_call_id] are [None] when the key is
    absent. *)
Record Message : Type := mkMessage {
  role : string;
  content : option string;
  msg_tool_calls : option (list ToolCall);
  tool_call_id : option string
}.

(** [ToolResponse]: [result] is [Any] ([JNull] is Python's [None]),
    [error] is [Optional[str]]. *)
Record ToolResponse : Type := mkToolResponse {
  tr_tool_call_id : string;
  result : json;
  error : option string
}.

(** One hit of [VectorStore.search]. *)
Record SearchHit : Type := mkSearchHit {
  hit_id : json;
  hit_score : json;
  hit_text : string;
  hit_metadata : json
}.

(** The ["message"] of a choice of the completion response: [m_content]
    is [None] when the key ["content"] is absent and [Some None] when it
    is [null]; [m_tool_calls] is [None] when the key is absent. *)
Record LLMMessage : Type := mkLLMMessage {
  m_content : option (option string);
  m_tool_calls : option (list ToolCall)
}.

(** The completion response, reduced to the ["message"] of each of its
    choices.  A response without the key ["choices"], or a choice without
    ["message"], raises a [KeyError] inside the [try] of
    [_generate_response], where a failure of the call itself is caught:
    both are the [Raised] outcome of [chat_completion] here. *)
Record ChatCompletion : Type := mkChatCompletion {
  choices : list LLMMessage
}.

(** [AgentState]. *)
Record AgentState : Type := mkAgentState {
  messages : list Message;
  tool_calls : list ToolCall;
  current_step : string;
  max_iterations : Z;
  iteration_count : Z
}.

(** The dict [process_request] returns; [rr_tool_calls] is [None] where
    the source leaves the key out. *)
Record RequestResult : Type := mkRequestResult {
  response : option string;
  rr_tool_calls : option (list ToolCall);
  rr_messages : list Message;
  status : string
}.

(** ** Collaborators *)

Class Collaborators (World : Type) : Type := {
  (** [repr] of a value that is not a string *)
  py_repr : json -> string;
  (** [str(e)] of a fault raised by the interpreter *)
  fault_text : PyFault -> string;
  json_dumps : json -> string;
  json_loads : string -> Outcome json;
  (** [VectorStore.search(query, limit)] *)
  vector_search : option string -> Z -> IO World (list SearchHit);
  (** [LLMClient.chat_completion(messages, temperature=0.7)] *)
  chat_completion : list Message -> IO World ChatCompletion;
  (** the file system behind [pathlib] and [open] *)
  fs_exists : string -> IO World bool;
  fs_read : string -> IO World string;
  fs_size : string -> IO World Z;
  fs_open_w : string -> IO World unit;
  fs_write : string -> string -> IO World unit;
  fs_is_dir : string -> IO World bool;
  fs_iterdir : string -> IO World (list string);
  fs_unlink : string -> IO World unit
}.

Definition newline : string := String "010"%char EmptyString.

(** [str.join]. *)
Fixpoint join (sep : string) (parts : list string) : string :=
  match parts with
  | [] => ""
  | [p] => p
  | p :: rest => p ++ sep ++ join sep rest
  end.

(** [xs[-1]]. *)
Fixpoint last_item {A : Type} (xs : list A) : option A :=
  match xs with
  | [] => None
  | [x] => Some x
  | _ :: rest => last_item rest
  end.

(** [xs[:-1]]. *)
Definition but_last {A : Type} (xs : list A) : list A := removelast xs.

Section Model.
Context {World : Type} `{Collaborators World}.

(** [str(v)], as an f-string formats a value. *)
Definition py_str (v : json) : string :=
  match v with
  | JStr s => s
  | _ => py_repr v
  end.

(** [str(content)] of a message content. *)
Definition fmt_content (c : option string) : string :=
  match c with
  | Some s => s
  | None => "None"
  end.

Definition fault {A} (f : PyFault) : IO World A := raise (fault_text f).

(** [v[key]] for a string key. *)
Definition subscript (v : json) (key : string) : IO World json :=
  match v with
  | JDict fields =>
      match dict_get key fields with
      | Some x => ret x
      | None => fault (KeyError key)
      end
  | _ => fault (NotSubscriptable v key)
  end.

(** ** [tools.py] *)

(** Binding of a call of the bound method [callee] with the mapping
    [arguments] unpacked as named parameters: the argument must be a
    mapping; its keys are taken in order, and the first one that names
    [self] (already bound) or no parameter at all is a fault; then every
    parameter without a default must have been given. *)
Definition bind_kwargs (callee : string) (required optional : list string)
           (arguments : json) : IO World (list (string * json)) :=
  match arguments with
  | JDict fields =>
      match filter (fun kv => (fst kv =? "self")%string
                              || negb (existsb (String.eqb (fst kv)) (required ++ optional)))
                   fields with
      | (kw, _) :: _ =>
          if (kw =? "self")%string
          then fault (MultipleValues callee kw)
          else fault (UnexpectedKeyword callee kw)
      | [] =>
          match filter (fun p => negb (dict_has p fields)) required with
          | [] => ret fields
          | missing => fault (MissingArguments callee missing)
          end
      end
  | _ => fault (NotAMapping callee arguments)
  end.

(** The value bound to a parameter, or its default. *)
Definition param (fields : list (string * json)) (name : string) (default : json) : json :=
  match dict_get name fields with
  | Some v => v
  | None => default
  end.

Definition mock_data : list (string * json) :=
  [ ("boost_target",
     JDict [ ("anomalies",
              JList [ JDict [("id", JInt 1); ("type", JStr "pressure_drop");
                             ("severity", JStr "high")];
                      JDict [("id", JInt 2); ("type", JStr "temperature_spike");
                             ("severity", JStr "medium")] ]);
             ("status", JStr "active");
             ("last_updated", JStr "2024-01-15T10:30:00Z") ]);
    ("engine_params",
     JDict [ ("rpm", JInt 2500); ("temperature", JInt 85);
             ("pressure", JFloat 23 (-1)) ]) ].

(** [key in mock_data] and [mock_data[key]]: a list or dict key is
    unhashable, any other value that is not one of the two names is
    absent. *)
Definition get_map (key : json) : IO World json :=
  match key with
  | JList _ | JDict _ => fault (Unhashable key)
  | JStr k =>
      match dict_get k mock_data with
      | Some data => ret (JDict [("key", key); ("data", data)])
      | None => ret (JDict [("key", key); ("data", JNull);
                            ("error", JStr "Key not found")])
      end
  | _ => ret (JDict [("key", key); ("data", JNull);
                     ("error", JStr "Key not found")])
  end.

Definition apply_patch (repo patch : json) : IO World json :=
  ret (JDict [ ("repo", repo);
               ("patch_applied", JBool true);
               ("changes", JList [JStr "file1.py"; JStr "file2.py"]);
               ("tests_passed", JBool true);
               ("message", JStr "Patch applied successfully") ]).

Definition search_logs (pattern log_path : json) : IO World json :=
  ret (JDict [ ("pattern", pattern);
               ("matches",
                JList [ JDict [("file", JStr "app.log"); ("line", JInt 123);
                               ("content", JStr ("Found: " ++ py_str pattern))];
                        JDict [("file", JStr "error.log"); ("line", JInt 45);
                               ("content", JStr ("Error: " ++ py_str pattern))] ]);
               ("total_matches", JInt 2) ]).

Definition run_tests (project_path test_pattern : json) : IO World json :=
  ret (JDict [ ("project_path", project_path);
               ("tests_run", JInt 15);
               ("tests_passed", JInt 14);
               ("tests_failed", JInt 1);
               ("duration", JStr "2.3s");
               ("status", JStr "partial_success") ]).

(** [operation == "read"] and the like. *)
Definition is_text (v : json) (s : string) : bool :=
  match v with
  | JStr x => (x =? s)%string
  | _ => false
  end.

(** [Path(path)]. *)
Definition as_path (v : json) : IO World string :=
  match v with
  | JStr p => ret p
  | _ => fault (NotAPath v)
  end.

Definition file_operations (operation path file_content : json) : IO World json :=
  try_except
    (path_obj <- as_path path ;;
     if is_text operation "read" then
       present <- fs_exists path_obj ;;
       if negb present then
         ret (JDict [("error", JStr ("File not found: " ++ py_str path))])
       else
         text <- fs_read path_obj ;;
         size <- fs_size path_obj ;;
         ret (JDict [("content", JStr text); ("size", JInt size)])
     else if is_text operation "write" then
       match file_content with
       | JNull => ret (JDict [("error", JStr "Content required for write operation")])
       | JStr text =>
           fs_open_w path_obj ;;;
           fs_write path_obj text ;;;
           ret (JDict [("message", JStr ("File written: " ++ py_str path));
                       ("size", JInt (Z.of_nat (String.length text)))])
       | _ =>
           fs_open_w path_obj ;;;
           fault (NotText file_content)
       end
     else if is_text operation "list" then
       present <- fs_exists path_obj ;;
       if negb present then
         ret (JDict [("error", JStr ("Path not found: " ++ py_str path))])
       else
         dir <- fs_is_dir path_obj ;;
         if dir then
           files <- fs_iterdir path_obj ;;
           ret (JDict [("files", JList (map JStr files));
                       ("count", JInt (Z.of_nat (length files)))])
         else
           ret (JDict [("error", JStr "Path is not a directory")])
     else if is_text operation "delete" then
       present <- fs_exists path_obj ;;
       if negb present then
         ret (JDict [("error", JStr ("File not found: " ++ py_str path))])
       else
         fs_unlink path_obj ;;;
         ret (JDict [("message", JStr ("File deleted: " ++ py_str path))])
     else
       ret (JDict [("error", JStr ("Unknown operation: " ++ py_str operation))]))
    (fun e => ret (JDict [("error", JStr e)])).

(** [ToolRegistry.tools]: each name with its method, called with the
    argument mapping unpacked. *)
Definition tools : list (string * (json -> IO World json)) :=
  [ ("get_map", fun arguments =>
       kw <- bind_kwargs "get_map" ["key"] [] arguments ;;
       get_map (param kw "key" JNull));
    ("apply_patch", fun arguments =>
       kw <- bind_kwargs "apply_patch" ["repo"; "patch"] [] arguments ;;
       apply_patch (param kw "repo" JNull) (param kw "patch" JNull));
    ("search_logs", fun arguments =>
       kw <- bind_kwargs "search_logs" ["pattern"] ["log_path"] arguments ;;
       search_logs (param kw "pattern" JNull) (param kw "log_path" JNull));
    ("run_tests", fun arguments =>
       kw <- bind_kwargs "run_tests" ["project_path"] ["test_pattern"] arguments ;;
       run_tests (param kw "project_path" JNull) (param kw "test_pattern" JNull));
    ("file_operations", fun arguments =>
       kw <- bind_kwargs "file_operations" ["operation"; "path"] ["content"] arguments ;;
       file_operations (param kw "operation" JNull) (param kw "path" JNull)
                       (param kw "content" JNull)) ].

(** [tool_name not in self.tools] followed by [self.tools[tool_name]]:
    [None] when the name is not registered. *)
Definition find_tool (tool_name : json) : IO World (option (json -> IO World json)) :=
  match tool_name with
  | JList _ | JDict _ => fault (Unhashable tool_name)
  | JStr name => ret (dict_get name tools)
  | _ => ret None
  end.

(** [ToolResponse(tool_call_id=..., result=..., error=...)]: the model
    validates its fields when it is built.  [tool_call_id: str] takes a
    string only; [result: Any] takes any value, and the [error] built here
    is always a string or [None]. *)
Definition new_ToolResponse (call_id r : json) (e : option string)
  : IO World ToolResponse :=
  match call_id with
  | JStr id => ret (mkToolResponse id r e)
  | _ => fault (ValidationError "ToolResponse" "tool_call_id" call_id)
  end.

(** The call id is whatever the caller passes (the annotation [str] is
    not checked at the call): the response is built with it inside the
    [try], and again in the handler. *)
Definition execute_tool (tool_name call_id arguments : json)
  : IO World ToolResponse :=
  try_except
    (found <- find_tool tool_name ;;
     match found with
     | None =>
         new_ToolResponse call_id JNull
                          (Some ("Unknown tool: " ++ py_str tool_name))
     | Some method =>
         r <- method arguments ;;
         new_ToolResponse call_id r None
     end)
    (fun e => new_ToolResponse call_id JNull (Some e)).

(** ** [langgraph_agent.py] *)

Definition set_messages (state : AgentState) (ms : list Message) : AgentState :=
  mkAgentState ms (tool_calls state) (current_step state)
               (max_iterations state) (iteration_count state).

Definition set_tool_calls (state : AgentState) (calls : list ToolCall) : AgentState :=
  mkAgentState (messages state) calls (current_step state)
               (max_iterations state) (iteration_count state).

Definition set_current_step (state : AgentState) (step : string) : AgentState :=
  mkAgentState (messages state) (tool_calls state) step
               (max_iterations state) (iteration_count state).

Definition set_iteration_count (state : AgentState) (n : Z) : AgentState :=
  mkAgentState (messages state) (tool_calls state) (current_step state)
               (max_iterations state) n.

Definition set_content (m : Message) (c : option string) : Message :=
  mkMessage (role m) c (msg_tool_calls m) (tool_call_id m).

(** Truth value of a list, as [if xs:] tests it. *)
Definition nonempty {A : Type} (xs : list A) : bool :=
  match xs with [] => false | _ => true end.

(** [xs[-1]] and [xs[0]], which raise on an empty list. *)
Definition index_last {A : Type} (xs : list A) : IO World A :=
  match last_item xs with
  | Some x => ret x
  | None => fault IndexError
  end.

Definition index_first {A : Type} (xs : list A) : IO World A :=
  match xs with
  | x :: _ => ret x
  | [] => fault IndexError
  end.

Definition _analyze_input (state : AgentState) : IO World AgentState :=
  let messages := messages state in
  last_message <-
    (if nonempty messages
     then (m <- index_last messages ;; ret (content m))
     else ret (Some "")) ;;
  ret (set_iteration_count (set_current_step state "analyzed") 0).

(** The warning printed when the search fails is not modelled. *)
Definition _retrieve_context (state : AgentState) : IO World AgentState :=
  let messages := messages state in
  state <-
    (if nonempty messages then
       m <- index_last messages ;;
       let last_message := content m in
       try_except
         (results <- vector_search last_message 3 ;;
          if nonempty results then
            let context := join newline (map hit_text results) in
            let rewritten :=
              set_content m
                (Some ("Context: " ++ context ++ newline ++ newline
                       ++ "Query: " ++ fmt_content last_message)) in
            ret (set_messages state (but_last messages ++ [rewritten]))
          else ret state)
         (fun e => ret state)
     else ret state) ;;
  ret (set_current_step state "context_retrieved").

(** [message.get("content", "")] and [message.get("tool_calls", [])]. *)
Definition get_content (message : LLMMessage) : option string :=
  match m_content message with
  | Some c => c
  | None => Some ""
  end.

Definition get_tool_calls (message : LLMMessage) : list ToolCall :=
  match m_tool_calls message with
  | Some calls => calls
  | None => []
  end.

(** The tool schemas are fetched but not passed on (the source has the
    argument commented out), so the gateway sees the messages only. *)
Definition _generate_response (state : AgentState) : IO World AgentState :=
  let messages := messages state in
  try_except
    (response <- chat_completion messages ;;
     message <- index_first (choices response) ;;
     let ai_message :=
       mkMessage "assistant" (get_content message)
                 (Some (get_tool_calls message)) None in
     let state := set_messages state (messages ++ [ai_message]) in
     let state :=
       if nonempty (get_tool_calls message)
       then set_tool_calls state (get_tool_calls message)
       else state in
     ret (set_current_step state "response_generated"))
    (fun e =>
       let error_message :=
         mkMessage "assistant" (Some ("Error generating response: " ++ e))
                   None None in
       ret (set_current_step (set_messages state (messages ++ [error_message]))
                             "error")).

Definition _should_use_tools (state : AgentState) : string :=
  if nonempty (tool_calls state) && (iteration_count state <? max_iterations state)
  then "tools"
  else "finalize".

(** [tool_call["function"]]. *)
Definition call_function (tool_call : ToolCall) : IO World json :=
  match tc_function tool_call with
  | Some f => ret f
  | None => fault (KeyError "function")
  end.

(** [json.loads] of a value: only a string is parsed. *)
Definition loads (v : json) : IO World json :=
  match v with
  | JStr text => lift (json_loads text)
  | _ => fault (NotJsonText v)
  end.

(** The body of the loop of [_execute_tools] for one tool call. *)
Definition execute_tool_call (tool_call : ToolCall) (messages : list Message)
  : IO World (list Message) :=
  try_except
    (f <- call_function tool_call ;;
     tool_name <- subscript f "name" ;;
     f <- call_function tool_call ;;
     text <- subscript f "arguments" ;;
     arguments <- loads text ;;
     call_id <- match tc_id tool_call with
                | Some i => ret i
                | None => fault (KeyError "id")
                end ;;
     r <- execute_tool tool_name (JStr call_id) arguments ;;
     let tool_message :=
       mkMessage "tool"
                 (if py_truthy (result r) then Some (json_dumps (result r))
                  else error r)
                 None (Some call_id) in
     ret (messages ++ [tool_message])%list)
    (fun e =>
       let error_message :=
         mkMessage "tool" (Some ("Tool execution error: " ++ e)) None
                   (Some (match tc_id tool_call with
                          | Some i => i
                          | None => "unknown"
                          end)) in
       ret (messages ++ [error_message])%list).

(** [for tool_call in tool_calls: ...]. *)
Fixpoint execute_each (calls : list ToolCall) (messages : list Message)
  : IO World (list Message) :=
  match calls with
  | [] => ret messages
  | tool_call :: rest =>
      messages <- execute_tool_call tool_call messages ;;
      execute_each rest messages
  end.

Definition _execute_tools (state : AgentState) : IO World AgentState :=
  let calls := tool_calls state in
  messages <- execute_each calls (messages state) ;;
  let state := set_messages state messages in
  let state := set_tool_calls state [] in
  let state := set_iteration_count state (iteration_count state + 1) in
  ret (set_current_step state "tools_executed").

Definition _finalize_response (state : AgentState) : IO World AgentState :=
  ret (set_current_step state "completed").

(** The graph of [_build_graph]. *)
Inductive Node : Type :=
| analyze | retrieve | generate_response | execute_tools | finalize | END.

Definition node_action (n : Node) : AgentState -> IO World AgentState :=
  match n with
  | analyze => _analyze_input
  | retrieve => _retrieve_context
  | generate_response => _generate_response
  | execute_tools => _execute_tools
  | finalize => _finalize_response
  | END => ret
  end.

(** The mapping given to [add_conditional_edges]. *)
Definition conditional_edges : list (string * Node) :=
  [("tools", execute_tools); ("finalize", finalize)].

(** The node that follows [n], given the state [n] returned. *)
Definition next_node (n : Node) (state : AgentState) : Node :=
  match n with
  | analyze => retrieve
  | retrieve => generate_response
  | generate_response =>
      match dict_get (_should_use_tools state) conditional_edges with
      | Some target => target
      | None => END
      end
  | execute_tools => generate_response
  | finalize => END
  | END => END
  end.

(** The limit of the graph library on the number of steps of a run:
    [ainvoke] is called with no [config], so the default of the library
    applies. *)
Definition recursion_limit : nat := 25.

(** How a run of the graph ends: at [END], with its final state; or with
    an exception, [reached] being the state of the run at that point.
    The message list of the state is the one list [process_request] built
    and passed in, which the nodes extend in place: what [reached] holds
    is what that list holds once the exception is caught. *)
Inductive Run : Type :=
| Finished (final : AgentState)
| Stopped (text : string) (reached : AgentState).

Definition run_state (r : Run) : AgentState :=
  match r with
  | Finished final => final
  | Stopped _ reached => reached
  end.

(** Running the compiled graph from node [n], along its edges, with
    [steps] steps left before the limit: how the run ends, the nodes run,
    in order, and the world.  Each node is one step; a run that has a node
    to run and no step left is stopped by the library.  An exception of a
    node would stop the run as well (each node above returns, whatever
    its collaborators do). *)
Fixpoint run_graph (steps : nat) (n : Node) (state : AgentState)
         (trace : list Node) (w : World)
  : Run * list Node * World :=
  match n with
  | END => (Finished state, trace, w)
  | _ =>
      match steps with
      | O => (Stopped (fault_text (GraphRecursionError recursion_limit)) state, trace, w)
      | S steps' =>
          match node_action n state w with
          | (Returned state', w') =>
              run_graph steps' (next_node n state') state' (trace ++ [n]) w'
          | (Raised text, w') => (Stopped text state, (trace ++ [n])%list, w')
          end
      end
  end.

(** [self.graph.ainvoke(initial_state)]. *)
Definition ainvoke (state : AgentState) (w : World) : Run * list Node * World :=
  run_graph recursion_limit analyze state [] w.

(** The answer [process_request] builds from the final messages. *)
Definition final_answer (final_messages : list Message) : RequestResult :=
  let ai_messages :=
    filter (fun msg => (role msg =? "assistant")%string) final_messages in
  match last_item ai_messages with
  | Some last_ai_message =>
      mkRequestResult (content last_ai_message)
                      (Some (match msg_tool_calls last_ai_message with
                             | Some calls => calls
                             | None => []
                             end))
                      final_messages "success"
  | None =>
      mkRequestResult (Some "No response generated") None final_messages "error"
  end.

Definition initial_state (chat : list ChatMessage) (max_iterations : Z)
  : AgentState :=
  let message_dicts :=
    map (fun msg => mkMessage (cm_role msg) (Some (cm_content msg)) None None)
        chat in
  mkAgentState message_dicts [] "start" max_iterations 0.

(** In the handler, [message_dicts] is the list object the run was given
    as [state["messages"]]: the nodes rewrite its last item and append to
    it in place ([messages[-1]["content"] = ...], [messages.append(...)]),
    so it holds what the run had reached when the exception was raised. *)
Definition process_request (chat : list ChatMessage) (max_iterations : Z)
           (w : World) : RequestResult * World :=
  let initial_state := initial_state chat max_iterations in
  match ainvoke initial_state w with
  | (Finished final_state, _, w') =>
      (final_answer (messages final_state), w')
  | (Stopped text reached, _, w') =>
      (mkRequestResult (Some ("Agent processing failed: " ++ text)) None
                       (messages reached) "error", w')
  end.

End Model.

(** ** A scripted world, to run the model on concrete turns *)

Module Demo.

(** The gateway answers its calls from [replies], in order, then with
    [default_reply]; it records the messages of every call in [prompts].
    The vector store answers every search with [search_outcome] and counts
    the searches.  Files are kept in memory. *)
Record DemoWorld : Type := mkDemoWorld {
  replies : list (Outcome ChatCompletion);
  default_reply : Outcome ChatCompletion;
  prompts : list (list Message);
  search_outcome : Outcome (list SearchHit);
  searches : nat;
  files : list (string * string)
}.

Definition quote : string := String "034"%char EmptyString.

Definition decimal (z : Z) : string := NilZero.string_of_int (Z.to_int z).

(** A plain serializer (no escapes), standing for [json.dumps]. *)
Fixpoint dumps (v : json) : string :=
  match v with
  | JNull => "null"
  | JBool true => "true"
  | JBool false => "false"
  | JInt z => decimal z
  | JFloat m e => decimal m ++ "e" ++ decimal e
  | JStr s => quote ++ s ++ quote
  | JList items => "[" ++ join ", " (map dumps items) ++ "]"
  | JDict fields =>
      "{" ++ join ", " (map (fun kv => quote ++ fst kv ++ quote ++ ": " ++ dumps (snd kv))
                            fields) ++ "}"
  end.

(** The argument texts the scripted model emits, standing for
    [json.loads]. *)
Definition loads_table : list (string * json) :=
  [ ("{}", JDict []);
    ("{key: engine_params}", JDict [("key", JStr "engine_params")]);
    ("[]", JList []) ].

Definition demo_loads (text : string) : Outcome json :=
  match dict_get text loads_table with
  | Some v => Returned v
  | None => Raised "Expecting value: line 1 column 1 (char 0)"
  end.

Definition demo_repr (v : json) : string :=
  match v with
  | JNull => "None"
  | JBool true => "True"
  | JBool false => "False"
  | _ => dumps v
  end.

Definition demo_fault_text (f : PyFault) : string :=
  match f with
  | KeyError key => "'" ++ key ++ "'"
  | IndexError => "list index out of range"
  | NotSubscriptable _ _ => "object is not subscriptable"
  | NotJsonText _ => "the JSON object must be str, bytes or bytearray"
  | Unhashable _ => "unhashable type"
  | NotAMapping callee _ => callee ++ "() argument after ** must be a mapping"
  | UnexpectedKeyword callee kw =>
      callee ++ "() got an unexpected keyword argument '" ++ kw ++ "'"
  | MultipleValues callee kw =>
      callee ++ "() got multiple values for argument '" ++ kw ++ "'"
  | MissingArguments callee names =>
      callee ++ "() missing required positional arguments: " ++ join ", " names
  | NotAPath _ => "expected str, bytes or os.PathLike object"
  | NotText _ => "write() argument must be str"
  | ValidationError model field _ =>
      "1 validation error for " ++ model ++ ": " ++ field
      ++ ": Input should be a valid string"
  | GraphRecursionError limit =>
      "Recursion limit of " ++ decimal (Z.of_nat limit)
      ++ " reached without hitting a stop condition."
  end.

Definition set_files (w : DemoWorld) (fs : list (string * string)) : DemoWorld :=
  mkDemoWorld (replies w) (default_reply w) (prompts w) (search_outcome w)
              (searches w) fs.

Definition demo_search (query : option string) (limit : Z) : IO DemoWorld (list SearchHit) :=
  fun w =>
    (search_outcome w,
     mkDemoWorld (replies w) (default_reply w) (prompts w) (search_outcome w)
                 (S (searches w)) (files w)).

Definition demo_chat (ms : list Message) : IO DemoWorld ChatCompletion :=
  fun w =>
    match replies w with
    | r :: rest =>
        (r, mkDemoWorld rest (default_reply w) (prompts w ++ [ms])
                        (search_outcome w) (searches w) (files w))
    | [] =>
        (default_reply w,
         mkDemoWorld [] (default_reply w) (prompts w ++ [ms])
                     (search_outcome w) (searches w) (files w))
    end.

Definition demo_read (path : string) : IO DemoWorld string :=
  fun w =>
    match dict_get path (files w) with
    | Some text => (Returned text, w)
    | None => (Raised ("No such file or directory: '" ++ path ++ "'"), w)
    end.

Definition remove_file (path : string) (fs : list (string * string))
  : list (string * string) :=
  filter (fun kv => negb (fst kv =? path)%string) fs.

#[export] Instance demo_collaborators : Collaborators DemoWorld := {
  py_repr := demo_repr;
  fault_text := demo_fault_text;
  json_dumps := dumps;
  json_loads := demo_loads;
  vector_search := demo_search;
  chat_completion := demo_chat;
  fs_exists := fun path w => (Returned (dict_has path (files w)), w);
  fs_read := demo_read;
  fs_size := fun path => text <- demo_read path ;; ret (Z.of_nat (String.length text));
  fs_open_w := fun path w => (Returned tt, set_files w ((path, "") :: remove_file path (files w)));
  fs_write := fun path text w =>
                (Returned tt, set_files w ((path, text) :: remove_file path (files w)));
  fs_is_dir := fun _ w => (Returned false, w);
  fs_iterdir := fun path => raise ("Not a directory: '" ++ path ++ "'");
  fs_unlink := fun path w => (Returned tt, set_files w (remove_file path (files w)))
}.

(** A world whose gateway follows [script] then [fallback], and whose
    vector store answers [found]. *)
Definition world (script : list (Outcome ChatCompletion))
           (fallback : Outcome ChatCompletion)
           (found : Outcome (list SearchHit)) : DemoWorld :=
  mkDemoWorld script fallback [] found 0 [].

Definition hit (text : string) : SearchHit :=
  mkSearchHit (JStr "doc-1") (JFloat 9 (-1)) text (JDict []).

(** A reply with text and no tool call, and one that asks for a tool. *)
Definition says (text : string) : Outcome ChatCompletion :=
  Returned (mkChatCompletion [mkLLMMessage (Some (Some text)) None]).

Definition asks (text : string) (calls : list ToolCall) : Outcome ChatCompletion :=
  Returned (mkChatCompletion [mkLLMMessage (Some (Some text)) (Some calls)]).

Definition call (id name arguments : string) : ToolCall :=
  mkToolCall (Some id)
             (Some (JDict [("name", JStr name); ("arguments", JStr arguments)])).

Definition user (text : string) : ChatMessage := mkChatMessage "user" text.

(** The gateway is unreachable; the vector store finds nothing. *)
Definition gateway_down : DemoWorld :=
  world [] (Raised "LLM request failed: boom") (Returned []).

(** What a caller sees of a turn: status, final text, and how many times
    the gateway was called. *)
Definition outcome (r : RequestResult * DemoWorld) : string * option string * nat :=
  (status (fst r), response (fst r), length (prompts (snd r))).

End Demo.


(** * Vocabulary of the properties *)

Section Vocabulary.
Context {World : Type} `{Collaborators World}.

(** A value a tool returned: a dict with at least one key. *)
Definition populated (v : json) : Prop := v <> JNull /\ py_truthy v = true.

(** The state [_retrieve_context] returns when the search gave [hits]. *)
Definition with_context (state : AgentState) (m : Message) (hits : list SearchHit)
  : AgentState :=
  set_messages state
    (but_last (messages state) ++
     [set_content m (Some ("Context: " ++ join newline (map hit_text hits)
                           ++ newline ++ newline ++ "Query: "
                           ++ fmt_content (content m)))]).

(** The message [_generate_response] appends for a reply, and for a
    failure of the gateway. *)
Definition ai_message (message : LLMMessage) : Message :=
  mkMessage "assistant" (get_content message) (Some (get_tool_calls message)) None.

Definition generation_error (e : string) : Message :=
  mkMessage "assistant" (Some ("Error generating response: " ++ e)) None None.

(** The id a tool message carries for a tool call. *)
Definition call_id_of (c : ToolCall) : string :=
  match tc_id c with
  | Some i => i
  | None => "unknown"
  end.

(** What the loop of [_execute_tools] reads from a tool call before it
    dispatches it: the tool name, the call id and the parsed arguments. *)
Definition read_call (tool_call : ToolCall) : IO World (json * string * json) :=
  f <- call_function tool_call ;;
  tool_name <- subscript f "name" ;;
  f <- call_function tool_call ;;
  text <- subscript f "arguments" ;;
  arguments <- loads text ;;
  call_id <- match tc_id tool_call with
             | Some i => ret i
             | None => fault (KeyError "id")
             end ;;
  ret (tool_name, call_id, arguments).

(** The two tool messages of the loop. *)
Definition tool_message (r : ToolResponse) (call_id : string) : Message :=
  mkMessage "tool"
            (if py_truthy (result r) then Some (json_dumps (result r)) else error r)
            None (Some call_id).

Definition tool_error_message (e : string) (c : ToolCall) : Message :=
  mkMessage "tool" (Some ("Tool execution error: " ++ e)) None (Some (call_id_of c)).

(** [answered c w m w']: in world [w], tool call [c] is answered by the
    tool message [m], leaving world [w'].  The call was read and dispatched
    to the registry, and the message carries the serialized result, or the
    error text of the registry; or reading the call failed, nothing was
    dispatched, and the message carries that failure. *)
Inductive answered (c : ToolCall) (w : World) (m : Message) (w' : World) : Prop :=
| answered_result name id arguments r :
    read_call c w = (Returned (name, id, arguments), w) ->
    execute_tool name (JStr id) arguments w = (Returned r, w') ->
    populated (result r) ->
    error r = None ->
    m = mkMessage "tool" (Some (json_dumps (result r))) None (Some id) ->
    answered c w m w'
| answered_error name id arguments r e :
    read_call c w = (Returned (name, id, arguments), w) ->
    execute_tool name (JStr id) arguments w = (Returned r, w') ->
    result r = JNull ->
    error r = Some e ->
    m = mkMessage "tool" (Some e) None (Some id) ->
    answered c w m w'
| answered_rejected e :
    read_call c w = (Raised e, w) ->
    w' = w ->
    m = mkMessage "tool" (Some ("Tool execution error: " ++ e)) None
                  (Some (call_id_of c)) ->
    answered c w m w'.

(** [batch calls w ms w']: the calls are answered one after the other, in
    order, each in the world the previous one left. *)
Inductive batch : list ToolCall -> World -> list Message -> World -> Prop :=
| batch_done w : batch [] w [] w
| batch_call c rest w m w1 ms w2 :
    answered c w m w1 ->
    batch rest w1 ms w2 ->
    batch (c :: rest) w (m :: ms) w2.

(** [generation_loop state w final trace w']: from the generation node in
    [state], the graph runs the nodes [trace] and ends in [final]. *)
Inductive generation_loop
  : AgentState -> World -> AgentState -> list Node -> World -> Prop :=
| loop_finalize state w state1 w1 :
    _generate_response state w = (Returned state1, w1) ->
    _should_use_tools state1 = "finalize" ->
    generation_loop state w (set_current_step state1 "completed")
                    [generate_response; finalize] w1
| loop_tools state w state1 w1 state2 w2 final trace w3 :
    _generate_response state w = (Returned state1, w1) ->
    _should_use_tools state1 = "tools" ->
    _execute_tools state1 w1 = (Returned state2, w2) ->
    generation_loop state2 w2 final trace w3 ->
    generation_loop state w final (generate_response :: execute_tools :: trace) w3.

(** [generation_rounds state w reached trace w']: from the generation node
    in [state], the graph runs the nodes [trace]: a generation, then, as
    long as the tools branch is taken, a tool cycle and a generation; it
    is in [reached] after the last of these generations. *)
Inductive generation_rounds
  : AgentState -> World -> AgentState -> list Node -> World -> Prop :=
| rounds_one state w state1 w1 :
    _generate_response state w = (Returned state1, w1) ->
    generation_rounds state w state1 [generate_response] w1
| rounds_more state w state1 w1 state2 w2 reached trace w3 :
    _generate_response state w = (Returned state1, w1) ->
    _should_use_tools state1 = "tools" ->
    _execute_tools state1 w1 = (Returned state2, w2) ->
    generation_rounds state2 w2 reached trace w3 ->
    generation_rounds state w reached (generate_response :: execute_tools :: trace) w3.

(** The text of the exception that stops a run at the limit of steps. *)
Definition recursion_error : string :=
  fault_text (GraphRecursionError recursion_limit).

(** The answer [process_request] gives for a run stopped by an exception. *)
Definition failure_answer (text : string) (ms : list Message) : RequestResult :=
  mkRequestResult (Some ("Agent processing failed: " ++ text)) None ms "error".

(** The number of tool-execution cycles in a run. *)
Definition tool_cycles (trace : list Node) : nat :=
  length (filter (fun n => match n with execute_tools => true | _ => false end) trace).

Definition is_assistant (m : Message) : bool := (role m =? "assistant")%string.

(** The most recent assistant-role message of a sequence. *)
Definition last_assistant (ms : list Message) : option Message :=
  last_item (filter is_assistant ms).

(** [tool_messages_matched n ms]: every tool-role message of [ms] after
    the first [n] messages carries the id of a tool call of the most recent
    assistant-role message before it (["unknown"] for a call with no id). *)
Definition tool_messages_matched (n : nat) (ms : list Message) : Prop :=
  forall before m after,
    ms = (before ++ m :: after)%list ->
    (n <= length before)%nat ->
    role m = "tool" ->
    exists a calls c,
      last_assistant before = Some a /\
      msg_tool_calls a = Some calls /\
      In c calls /\
      tool_call_id m = Some (call_id_of c).

(** The first two nodes of a turn. *)
Definition after_retrieval (chat : list ChatMessage) (max_iterations : Z)
  : IO World AgentState :=
  state <- _analyze_input (initial_state chat max_iterations) ;;
  _retrieve_context state.

End Vocabulary.

(** * More of the code: the tool schemas *)

(** One property of a schema: its type and description. *)
Definition schema_property (description : string) : json :=
  JDict [("type", JStr "string"); ("description", JStr description)].

(** [ToolRegistry.get_tool_schemas]. *)
Definition get_tool_schemas : list json :=
  [ JDict
      [ ("type", JStr "function");
        ("function",
         JDict
           [ ("name", JStr "get_map");
             ("description", JStr "Fetch a table, map, or data structure by key");
             ("parameters",
              JDict
                [ ("type", JStr "object");
                  ("properties",
                   JDict [ ("key", schema_property "The key to fetch") ]);
                  ("required", JList [JStr "key"]) ]) ]) ];
    JDict
      [ ("type", JStr "function");
        ("function",
         JDict
           [ ("name", JStr "apply_patch");
             ("description", JStr "Apply a code or data patch and run tests");
             ("parameters",
              JDict
                [ ("type", JStr "object");
                  ("properties",
                   JDict [ ("repo", schema_property "Repository or project name");
                           ("patch", schema_property "The patch to apply") ]);
                  ("required", JList [JStr "repo"; JStr "patch"]) ]) ]) ];
    JDict
      [ ("type", JStr "function");
        ("function",
         JDict
           [ ("name", JStr "search_logs");
             ("description", JStr "Search through log files for patterns");
             ("parameters",
              JDict
                [ ("type", JStr "object");
                  ("properties",
                   JDict [ ("pattern", schema_property "Search pattern or regex");
                           ("log_path",
                            schema_property "Path to log file or directory") ]);
                  ("required", JList [JStr "pattern"]) ]) ]) ];
    JDict
      [ ("type", JStr "function");
        ("function",
         JDict
           [ ("name", JStr "run_tests");
             ("description", JStr "Run unit tests for a project");
             ("parameters",
              JDict
                [ ("type", JStr "object");
                  ("properties",
                   JDict [ ("project_path", schema_property "Path to the project");
                           ("test_pattern", schema_property "Test pattern to run") ]);
                  ("required", JList [JStr "project_path"]) ]) ]) ];
    JDict
      [ ("type", JStr "function");
        ("function",
         JDict
           [ ("name", JStr "file_operations");
             ("description", JStr "Perform file operations (read, write, list)");
             ("parameters",
              JDict
                [ ("type", JStr "object");
                  ("properties",
                   JDict [ ("operation",
                            JDict [ ("type", JStr "string");
                                    ("enum", JList [JStr "read"; JStr "write";
                                                    JStr "list"; JStr "delete"]);
                                    ("description", JStr "File operation to perform") ]);
                           ("path", schema_property "File or directory path");
                           ("content",
                            schema_property "Content to write (for write operation)") ]);
                  ("required", JList [JStr "operation"; JStr "path"]) ]) ]) ] ].

(** Reading a schema: [v.get(key)] on a value that may not be a dict. *)
Definition json_get (key : string) (v : json) : option json :=
  match v with
  | JDict fields => dict_get key fields
  | _ => None
  end.

Definition json_path (keys : list string) (v : json) : option json :=
  fold_left (fun acc key => match acc with
                            | Some x => json_get key x
                            | None => None
                            end) keys (Some v).

(** The name a schema declares, the parameters it declares and the ones
    it requires. *)
Definition schema_name (schema : json) : option string :=
  match json_path ["function"; "name"] schema with
  | Some (JStr name) => Some name
  | _ => None
  end.

Definition schema_properties (schema : json) : list string :=
  match json_path ["function"; "parameters"; "properties"] schema with
  | Some (JDict fields) => map fst fields
  | _ => []
  end.

Definition schema_required (schema : json) : list string :=
  match json_path ["function"; "parameters"; "required"] schema with
  | Some (JList items) =>
      flat_map (fun v => match v with JStr r => [r] | _ => [] end) items
  | _ => []
  end.

(** An argument mapping fits a schema when each of its keys is a declared
    parameter and each required parameter is among its keys. *)
Definition fits_schema (schema : json) (fields : list (string * json)) : bool :=
  forallb (fun kv => existsb (String.eqb (fst kv)) (schema_properties schema)) fields
  && forallb (fun r => dict_has r fields) (schema_required schema).

(** The generation nodes of a run: one gateway call each. *)
Definition generations (trace : list Node) : nat :=
  length (filter (fun n => match n with generate_response => true | _ => false end)
                 trace).

(** * More of the code: the clients of the services and the endpoints *)

(** One exchange with a server through [httpx]: a response, with its
    status code, the text of the error [raise_for_status] raises for it
    (if it raises) and the outcome of [response.json()], which raises no
    [httpx.HTTPError]; or a request that raised an [httpx.HTTPError]
    (no connection, timeout); or a request that raised something else. *)
Inductive Exchange : Type :=
| Answered (status_code : Z) (status_error : option string) (body : Outcome json)
| HttpFailed (text : string)
| Crashed (text : string).

(** The payload of [LLMClient.chat_completion]; the keys [max_tokens] and
    [tools] may be absent. *)
Record ChatPayload : Type := mkChatPayload {
  p_model : string;
  p_messages : list Message;
  p_temperature : json;
  p_stream : bool;
  p_max_tokens : option Z;
  p_tools : option (list json)
}.

(** A point returned by the search of the index. *)
Record ScoredPoint : Type := mkScoredPoint {
  sp_id : json;
  sp_score : json;
  sp_payload : json
}.

(** What an endpoint answers: a JSON body (status 200), or an
    [HTTPException]. *)
Inductive HttpResult : Type :=
| Ok (body : json)
| HTTPException (status_code : Z) (detail : string).

(** [ChatRequest]. *)
Record ChatRequest : Type := mkChatRequest {
  req_messages : list ChatMessage;
  req_model : option string;
  req_temperature : json;
  req_max_tokens : option Z;
  req_stream : option bool
}.

(** The request of the endpoint that executes a tool ([Dict[str, Any]]):
    each key may be absent, and its value is any value. *)
Record ToolRequest : Type := mkToolRequest {
  treq_tool_name : option json;
  treq_arguments : option json;
  treq_tool_call_id : option json
}.

Class Services (World : Type) : Type := {
  (** [settings] *)
  openai_compat_url : string;
  embed_url : string;
  (** requests of the [httpx] clients *)
  http_get : string -> World -> Exchange * World;
  http_post_chat : string -> ChatPayload -> World -> Exchange * World;
  http_post_json : string -> json -> World -> Exchange * World;
  (** the Qdrant client: search of a collection, upsert of one point
      (building the point included), list of the collections *)
  qdrant_search : string -> json -> Z -> json -> IO World (list ScoredPoint);
  qdrant_upsert : string -> json -> json -> json -> IO World unit;
  qdrant_get_collections : IO World json;
  (** [time.time()] and [int] of it *)
  time_time : World -> json * World;
  py_int : json -> Z;
  (** [str(e)] of the exception of [v[0]] on a value that has no item 0,
      of an [HTTPException], of a validation error of a model, and of
      [str.join] on an item that is not a string *)
  index_error_text : json -> string;
  http_exception_text : Z -> string -> string;
  validation_error_text : json -> string;
  join_error_text : json -> string;
  (** the completion response as [_generate_response] reads it *)
  completion_view : json -> Outcome ChatCompletion
}.

Definition default_model : string := "Qwen/Qwen2.5-7B-Instruct-AWQ".

(** [x or default] on an optional string. *)
Definition or_default (x : option string) (default : string) : string :=
  match x with
  | Some s => if (s =? "")%string then default else s
  | None => default
  end.

Module LLMClient.
Section WithServices.
Context {World : Type} `{Services World}.

Definition health_check : IO World bool :=
  fun w =>
    match http_get (openai_compat_url ++ "/models") w with
    | (Answered status_code _ _, w') => (Returned (status_code =? 200), w')
    | (HttpFailed _, w') => (Returned false, w')
    | (Crashed _, w') => (Returned false, w')
    end.

Definition chat_completion (messages : list Message) (model : option string)
           (temperature : json) (max_tokens : option Z) (tools : option (list json))
           (stream : bool) : IO World json :=
  let payload :=
    mkChatPayload (or_default model default_model) messages temperature stream
                  (match max_tokens with
                   | Some n => if n =? 0 then None else Some n
                   | None => None
                   end)
                  (match tools with
                   | Some (t :: ts) => Some (t :: ts)
                   | _ => None
                   end) in
  fun w =>
    match http_post_chat (openai_compat_url ++ "/chat/completions") payload w with
    | (Answered _ None body, w') => (body, w')
    | (Answered _ (Some e) _, w') => (Raised ("LLM request failed: " ++ e), w')
    | (HttpFailed e, w') => (Raised ("LLM request failed: " ++ e), w')
    | (Crashed e, w') => (Raised e, w')
    end.

End WithServices.
End LLMClient.

Module VectorStore.
Section WithServices.
Context {World : Type} `{Collaborators World} `{Services World}.

Definition collection_name : string := "documents".

(** [v[0]]. *)
Definition first_item (v : json) : IO World json :=
  match v with
  | JList (x :: _) => ret x
  | JStr (String c _) => ret (JStr (String c EmptyString))
  | _ => raise (index_error_text v)
  end.

Definition embed_text (text : json) : IO World json :=
  try_except
    (fun w =>
       match http_post_json (embed_url ++ "/embed") (JDict [("inputs", JList [text])]) w with
       | (Answered _ None body, w') =>
           (result <- lift body ;;
            data <- subscript result "data" ;;
            item <- first_item data ;;
            subscript item "embedding") w'
       | (Answered _ (Some e) _, w') => (Raised e, w')
       | (HttpFailed e, w') => (Raised e, w')
       | (Crashed e, w') => (Raised e, w')
       end)
    (fun e => raise ("Embedding failed: " ++ e)).

(** [metadata or {}]. *)
Definition or_empty (metadata : json) : json :=
  if py_truthy metadata then metadata else JDict [].

Definition add_document (document_id text metadata : json) : IO World unit :=
  try_except
    (embedding <- embed_text text ;;
     qdrant_upsert collection_name document_id embedding
                   (JDict [("text", text); ("metadata", or_empty metadata)]))
    (fun e => raise ("Failed to add document: " ++ e)).

(** One entry of the list [search] returns. *)
Definition hit_of_point (point : ScoredPoint) : IO World json :=
  text <- subscript (sp_payload point) "text" ;;
  ret (JDict [ ("id", sp_id point);
               ("score", sp_score point);
               ("text", text);
               ("metadata", match json_get "metadata" (sp_payload point) with
                            | Some m => m
                            | None => JDict []
                            end) ]).

Fixpoint hits_of_points (points : list ScoredPoint) : IO World (list json) :=
  match points with
  | [] => ret []
  | point :: rest =>
      h <- hit_of_point point ;;
      hs <- hits_of_points rest ;;
      ret (h :: hs)
  end.

Definition search (query : json) (limit : Z) (score_threshold : json)
  : IO World (list json) :=
  try_except
    (query_embedding <- embed_text query ;;
     results <- qdrant_search collection_name query_embedding limit score_threshold ;;
     hits_of_points results)
    (fun e => raise ("Search failed: " ++ e)).

Definition health_check : IO World bool :=
  try_except (_ <- qdrant_get_collections ;; ret true) (fun _ => ret false).

End WithServices.
End VectorStore.

Section AgentOverServices.
Context {World : Type} `{Collaborators World} `{Services World}.

(** [LangGraphAgent.health_check]. *)
Definition health_check : IO World (list (string * bool)) :=
  llm <- LLMClient.health_check ;;
  store <- VectorStore.health_check ;;
  ret [("llm", llm); ("vector_store", store)].

(** The hits of [VectorStore.search] as [_retrieve_context] uses them:
    [str.join] raises on the first text that is not a string. *)
Fixpoint typed_hits (hits : list json) : Outcome (list SearchHit) :=
  match hits with
  | [] => Returned []
  | h :: rest =>
      match json_get "text" h with
      | Some (JStr text) =>
          match typed_hits rest with
          | Returned typed =>
              Returned (mkSearchHit
                          (match json_get "id" h with Some v => v | None => JNull end)
                          (match json_get "score" h with Some v => v | None => JNull end)
                          text
                          (match json_get "metadata" h with Some v => v | None => JNull end)
                        :: typed)
          | Raised e => Raised e
          end
      | _ => Raised (join_error_text h)
      end
  end.

(** The collaborators of an agent built as [LangGraphAgent.__init__]
    builds it: its gateway is [LLMClient.chat_completion] called with the
    messages and [temperature=0.7], its retriever [VectorStore.search]
    with the default threshold. *)
Definition agent_collaborators : Collaborators World := {|
  py_repr := py_repr;
  fault_text := fault_text;
  json_dumps := json_dumps;
  json_loads := json_loads;
  vector_search := fun query limit =>
    hits <- VectorStore.search (match query with Some q => JStr q | None => JNull end)
                               limit (JFloat 7 (-1)) ;;
    lift (typed_hits hits);
  chat_completion := fun messages =>
    r <- LLMClient.chat_completion messages None (JFloat 7 (-1)) None None false ;;
    lift (completion_view r);
  fs_exists := fs_exists;
  fs_read := fs_read;
  fs_size := fs_size;
  fs_open_w := fs_open_w;
  fs_write := fs_write;
  fs_is_dir := fs_is_dir;
  fs_iterdir := fs_iterdir;
  fs_unlink := fs_unlink
|}.

(** ** [main.py]: the endpoints.  [agent_ready] says whether the global
    agent is set. *)

Definition json_of_text (t : option string) : json :=
  match t with
  | Some s => JStr s
  | None => JNull
  end.

Definition main_health_check (agent_ready : bool) (w : World) : HttpResult * World :=
  if negb agent_ready then (HTTPException 503 "Agent not initialized", w)
  else
    match health_check w with
    | (Returned health, w1) =>
        let (t, w2) := time_time w1 in
        (Ok (JDict [ ("status",
                      JStr (if forallb snd health then "healthy" else "unhealthy"));
                     ("components", JDict (map (fun kv => (fst kv, JBool (snd kv))) health));
                     ("timestamp", t) ]), w2)
    | (Raised e, w1) => (HTTPException 500 e, w1)
    end.

Definition chat_completions (agent_ready : bool) (request : ChatRequest) (w : World)
  : HttpResult * World :=
  if negb agent_ready then (HTTPException 503 "Agent not initialized", w)
  else
    let messages :=
      map (fun msg => mkChatMessage (cm_role msg) (cm_content msg))
          (req_messages request) in
    let (result, w1) := process_request messages 3 w in
    let (t1, w2) := time_time w1 in
    let (t2, w3) := time_time w2 in
    (Ok (JDict
           [ ("id", JStr ("chatcmpl-" ++ py_str (JInt (py_int t1))));
             ("object", JStr "chat.completion");
             ("created", JInt (py_int t2));
             ("model", JStr (or_default (req_model request) default_model));
             ("choices",
              JList [ JDict [ ("index", JInt 0);
                              ("message",
                               JDict [ ("role", JStr "assistant");
                                       ("content",
                                        json_of_text (response result)) ]);
                              ("finish_reason", JStr "stop") ] ]);
             ("usage", JNull) ]), w3).

Definition simple_chat (agent_ready : bool) (request : list (string * json)) (w : World)
  : HttpResult * World :=
  if negb agent_ready then (HTTPException 503 "Agent not initialized", w)
  else
    let message := match dict_get "message" request with
                   | Some v => v
                   | None => JStr ""
                   end in
    if negb (py_truthy message) then
      (HTTPException
         500 ("Chat failed: " ++ http_exception_text 400 "Message is required"), w)
    else
      match message with
      | JStr text =>
          let (result, w1) := process_request [mkChatMessage "user" text] 3 w in
          let (t, w2) := time_time w1 in
          (Ok (JDict [ ("response", json_of_text (response result));
                       ("status", JStr (status result));
                       ("timestamp", t) ]), w2)
      | _ =>
          (HTTPException 500 ("Chat failed: " ++ validation_error_text message), w)
      end.

Definition main_execute_tool (agent_ready : bool) (request : ToolRequest) (w : World)
  : HttpResult * World :=
  if negb agent_ready then (HTTPException 503 "Agent not initialized", w)
  else
    let tool_name := match treq_tool_name request with Some v => v | None => JNull end in
    let arguments := match treq_arguments request with Some v => v | None => JDict [] end in
    let tool_call_id := match treq_tool_call_id request with
                        | Some v => v
                        | None => JStr "direct_call"
                        end in
    if negb (py_truthy tool_name) then
      (HTTPException
         500 ("Tool execution failed: " ++ http_exception_text 400 "tool_name is required"),
       w)
    else
      match execute_tool tool_name tool_call_id arguments w with
      | (Returned r, w1) =>
          (Ok (JDict [ ("tool_call_id", JStr (tr_tool_call_id r));
                       ("result", result r);
                       ("error", json_of_text (error r)) ]), w1)
      | (Raised e, w1) => (HTTPException 500 ("Tool execution failed: " ++ e), w1)
      end.

(** The entry [VectorStore.search] builds for a point whose payload has
    the text [text]. *)
Definition hit_entry (point : ScoredPoint) (text : json) : json :=
  JDict [ ("id", sp_id point);
          ("score", sp_score point);
          ("text", text);
          ("metadata", match json_get "metadata" (sp_payload point) with
                       | Some m => m
                       | None => JDict []
                       end) ].

(** The payload the agent posts for a generation. *)
Definition agent_payload (messages : list Message) : ChatPayload :=
  mkChatPayload default_model messages (JFloat 7 (-1)) false None None.

End AgentOverServices.

(** ** Scripted services, for concrete runs over the scripted world *)

Module DemoServices.
Import Demo.

(** Services that answer every chat request with [chat], every request
    to the embeddings service with [embed] and every search of the index
    with [points]; the addresses are the defaults of [Settings]. *)
Definition services (chat embed : Exchange) (points : Outcome (list ScoredPoint))
  : Services DemoWorld := {|
  openai_compat_url := "http://localhost:8000/v1";
  embed_url := "http://localhost:8081";
  http_get := fun _ w => (Answered 200 None (Returned (JDict [("data", JList [])])), w);
  http_post_chat := fun _ _ w => (chat, w);
  http_post_json := fun _ _ w => (embed, w);
  qdrant_search := fun _ _ _ _ w => (points, w);
  qdrant_upsert := fun _ _ _ _ w => (Returned tt, w);
  qdrant_get_collections := fun w => (Returned (JDict [("collections", JList [])]), w);
  time_time := fun w => (JFloat 17000000000 (-1), w);
  py_int := fun t => match t with JFloat m e => m * 10 ^ e | JInt z => z | _ => 0 end;
  index_error_text := fun _ => "list index out of range";
  http_exception_text := fun code detail => decimal code ++ ": " ++ detail;
  validation_error_text := fun _ => "Input should be a valid string";
  join_error_text := fun _ => "sequence item 0: expected str instance";
  completion_view := fun _ => Raised "'choices'"
|}.

(** An answer of the embeddings service with one embedding. *)
Definition embedded : Exchange :=
  Answered 200 None
           (Returned (JDict [("data",
                              JList [JDict [("embedding",
                                             JList [JFloat 1 (-1); JFloat 2 (-1)])]])])).

Definition point (id : Z) (text : string) : ScoredPoint :=
  mkScoredPoint (JInt id) (JFloat 9 (-1)) (JDict [("text", JStr text)]).

End DemoServices.

(** * Properties *)

(** Case analysis on the outcome of every call a computation makes. *)
Ltac io_unfold :=
  unfold fault, bind, try_except, ret, raise, lift in *.

Ltac io_destruct x :=
  let T := type of x in
  lazymatch eval hnf in T with
  | prod _ _ => destruct x eqn:?
  | Outcome _ => destruct x eqn:?
  | option _ => destruct x eqn:?
  | bool => destruct x eqn:?
  | json => destruct x eqn:?
  end.

Ltac io_step :=
  match goal with
  | H : (_, _) = (_, _) |- _ => inversion H; subst; clear H
  | H : Returned _ = Returned _ |- _ => inversion H; subst; clear H
  | H : Returned _ = Raised _ |- _ => discriminate H
  | H : Raised _ = Returned _ |- _ => discriminate H
  | H : context [match ?x with _ => _ end] |- _ => io_destruct x
  end.

Ltac io_cases := io_unfold; repeat (io_step; cbv beta iota in * ).

Section ToolProperties.
Context {World : Type} `{Collaborators World}.

Lemma get_map_populated key w o w' :
  get_map key w = (o, w') -> forall v, o = Returned v -> populated v.
Proof.
  unfold get_map, populated; intros E v ->.
  io_cases; split; (discriminate || reflexivity).
Qed.

Lemma file_operations_populated operation path file_content w :
  exists v w', file_operations operation path file_content w = (Returned v, w')
               /\ populated v.
Proof.
  unfold file_operations, populated.
  destruct (try_except _ _ w) as [o w'] eqn:E.
  unfold as_path in E.
  io_cases; eexists _, _; (split; [reflexivity | split; (discriminate || reflexivity)]).
Qed.

Lemma tools_populated name method arguments w v w' :
  dict_get name tools = Some method ->
  method arguments w = (Returned v, w') ->
  populated v.
Proof.
  unfold tools; simpl; intros Hget Hrun.
  repeat match type of Hget with
         | (if ?c then _ else _) = _ => destruct c
         end;
    try discriminate; inversion Hget; subst; clear Hget;
    unfold bind in Hrun;
    destruct (bind_kwargs _ _ _ _ _) as [[kw|e] w1]; try discriminate.
  - eapply get_map_populated; eauto.
  - unfold apply_patch, ret in Hrun; inversion Hrun; split; (discriminate || reflexivity).
  - unfold search_logs, ret in Hrun; inversion Hrun; split; (discriminate || reflexivity).
  - unfold run_tests, ret in Hrun; inversion Hrun; split; (discriminate || reflexivity).
  - destruct (file_operations_populated (param kw "operation" JNull) (param kw "path" JNull)
                (param kw "content" JNull) w1) as (v' & w2 & E & P).
    rewrite E in Hrun; inversion Hrun; subst; exact P.
Qed.

(** What [execute_tool] returns for a tool name and a call id that are
    strings. *)
Lemma execute_tool_cases name call_id arguments w :
  execute_tool (JStr name) (JStr call_id) arguments w =
  match dict_get name tools with
  | None =>
      (Returned (mkToolResponse call_id JNull (Some ("Unknown tool: " ++ name))), w)
  | Some method =>
      match method arguments w with
      | (Returned r, w') => (Returned (mkToolResponse call_id r None), w')
      | (Raised e, w') => (Returned (mkToolResponse call_id JNull (Some e)), w')
      end
  end.
Proof.
  unfold execute_tool, find_tool, new_ToolResponse, try_except, bind, ret;
    cbv beta iota.
  destruct (dict_get name tools) as [method|]; [|reflexivity].
  destruct (method arguments w) as [[r|e] w']; reflexivity.
Qed.

Lemma new_ToolResponse_refuses call_id r e w :
  (forall id, call_id <> JStr id) ->
  new_ToolResponse call_id r e w =
  (Raised (fault_text (ValidationError "ToolResponse" "tool_call_id" call_id)), w).
Proof.
  intros Hid; destruct call_id; try reflexivity.
  exfalso; eapply Hid; reflexivity.
Qed.

(** With a call id that is not a string no response can be built, in the
    [try] or in the handler. *)
Lemma execute_tool_refuses tool_name call_id arguments w :
  (forall id, call_id <> JStr id) ->
  exists w',
    execute_tool tool_name call_id arguments w =
    (Raised (fault_text (ValidationError "ToolResponse" "tool_call_id" call_id)), w').
Proof.
  intros Hid; unfold execute_tool, try_except.
  destruct (bind _ _ w) as [[r|e] w'] eqn:B.
  - exfalso; unfold bind in B.
    destruct (find_tool tool_name w) as [[[method|]|e] w1]; try discriminate.
    + destruct (method arguments w1) as [[v|e] w2]; try discriminate.
      rewrite new_ToolResponse_refuses in B by exact Hid; discriminate.
    + rewrite new_ToolResponse_refuses in B by exact Hid; discriminate.
  - exists w'; apply new_ToolResponse_refuses; exact Hid.
Qed.

Lemma bind_kwargs_raises callee required optional arguments w e w' :
  bind_kwargs callee required optional arguments w = (Raised e, w') ->
  exists f, e = fault_text f.
Proof.
  unfold bind_kwargs; intros E.
  destruct arguments;
    try (unfold fault, raise in E; inversion E; eexists; reflexivity).
  destruct (filter _ fields) as [|[kw v] rest].
  - destruct (filter _ required); unfold fault, raise, ret in E;
      inversion E; eexists; reflexivity.
  - destruct (kw =? "self")%string; unfold fault, raise in E;
      inversion E; eexists; reflexivity.
Qed.

Lemma tools_raise name method arguments w e w' :
  dict_get name tools = Some method ->
  method arguments w = (Raised e, w') ->
  exists f, e = fault_text f.
Proof.
  unfold tools; simpl; intros Hget Hrun.
  repeat match type of Hget with
         | (if ?c then _ else _) = _ => destruct c
         end;
    try discriminate; inversion Hget; subst; clear Hget;
    unfold bind in Hrun;
    destruct (bind_kwargs _ _ _ _ _) as [[kw|e0] w1] eqn:B;
    try (inversion Hrun; subst; eapply bind_kwargs_raises; exact B).
  - unfold get_map in Hrun; io_cases; eexists; reflexivity.
  - destruct (file_operations_populated (param kw "operation" JNull) (param kw "path" JNull)
                (param kw "content" JNull) w1) as (v' & w2 & E & _).
    rewrite E in Hrun; discriminate.
Qed.

Lemma execute_tool_shape tool_name call_id arguments w :
  exists r w',
    execute_tool tool_name (JStr call_id) arguments w = (Returned r, w') /\
    tr_tool_call_id r = call_id /\
    ((populated (result r) /\ error r = None) \/
     (result r = JNull /\ exists e, error r = Some e)).
Proof.
  destruct tool_name as [| b | z | m e | name | items | fields];
    try (unfold execute_tool, find_tool, new_ToolResponse, try_except, bind, ret,
           fault, raise;
         cbv beta iota; eexists _, _; split; [reflexivity|]; split; [reflexivity|];
         right; split; [reflexivity|]; eexists; reflexivity).
  rewrite execute_tool_cases.
  destruct (dict_get name tools) as [method|] eqn:Hget;
    [destruct (method arguments w) as [[r|e] w'] eqn:Hrun|];
    eexists _, _; (split; [reflexivity|]); (split; [reflexivity|]);
    try (right; split; [reflexivity|]; eexists; reflexivity).
  left; split; [|reflexivity].
  simpl; eapply tools_populated; eauto.
Qed.

(** C4: for every tool name, call id and argument mapping, the
    [ToolResponse] that [execute_tool] returns has exactly one of [result]
    and [error] populated: either [result] is a non-empty value and
    [error] is [None], or [result] is [None] and [error] is a text: the
    unknown-tool message, or the interpreter's message for a fault.  With
    a call id that is a string a response is always returned; and every
    response returned, for whatever call id, carries that call id, a
    string, and has exactly one of the two fields populated. *)
Theorem execute_tool_result_xor_error tool_name arguments w :
  (forall call_id,
      exists r w',
        execute_tool tool_name (JStr call_id) arguments w = (Returned r, w') /\
        tr_tool_call_id r = call_id /\
        ((populated (result r) /\ error r = None) \/
         (result r = JNull /\
          exists e, error r = Some e /\
                    (e = "Unknown tool: " ++ py_str tool_name \/
                     exists f, e = fault_text f)))) /\
  (forall call_id r w',
      execute_tool tool_name call_id arguments w = (Returned r, w') ->
      call_id = JStr (tr_tool_call_id r) /\
      ((populated (result r) /\ error r = None) \/
       (result r = JNull /\ exists e, error r = Some e))).
Proof.
  split.
  - intros call_id.
    destruct tool_name as [| b | z | m e | name | items | fields];
      try (unfold execute_tool, find_tool, new_ToolResponse, try_except, bind, ret,
             fault, raise;
           cbv beta iota; eexists _, _; split; [reflexivity|];
           split; [reflexivity|]; right; split; [reflexivity|];
           eexists; split; [reflexivity|];
           first [left; reflexivity | right; eexists; reflexivity]).
    rewrite execute_tool_cases.
    destruct (dict_get name tools) as [method|] eqn:Hget.
    + destruct (method arguments w) as [[r|e] w'] eqn:Hrun.
      * eexists _, _; split; [reflexivity|]; split; [reflexivity|].
        left; split; [|reflexivity].
        simpl; eapply tools_populated; eauto.
      * eexists _, _; split; [reflexivity|]; split; [reflexivity|].
        right; split; [reflexivity|]; eexists; split; [reflexivity|].
        right; eapply tools_raise; eauto.
    + eexists _, _; split; [reflexivity|]; split; [reflexivity|].
      right; split; [reflexivity|]; eexists; split; [reflexivity|].
      left; reflexivity.
  - intros call_id r w' E.
    destruct call_id as [| b | z | m e | id | items | fields];
      try (exfalso;
           edestruct (execute_tool_refuses tool_name) as (w0 & R);
           [|rewrite R in E; discriminate]; intros id; discriminate).
    destruct (execute_tool_shape tool_name id arguments w) as (r0 & w0 & E0 & Hid & S).
    rewrite E in E0; inversion E0; subst r0 w0.
    rewrite Hid; split; [reflexivity|exact S].
Qed.

(** C5, as amended: with a call id that is a string, [execute_tool] never
    raises to its caller, whatever the tool name and the arguments: a name
    that is not registered gives the response with
    [error = "Unknown tool: <name>"] and [result = None], and a fault
    raised by the call of a registered tool (by its body, or by the
    binding of the argument mapping to its parameters: arguments that are
    not a mapping, for one) comes back as the [error] field, with
    [result = None].  With a call id that is not a string the response is
    refused by its model, in the [try] and again in the handler, and
    [execute_tool] raises that refusal to its caller; a registered tool
    has run by then. *)
Theorem execute_tool_never_raises :
  (forall tool_name call_id arguments w,
      exists r w',
        execute_tool tool_name (JStr call_id) arguments w = (Returned r, w') /\
        tr_tool_call_id r = call_id) /\
  (forall name call_id arguments w,
      dict_get name tools = None ->
      execute_tool (JStr name) (JStr call_id) arguments w =
      (Returned (mkToolResponse call_id JNull (Some ("Unknown tool: " ++ name))), w)) /\
  (forall name method call_id arguments w e w',
      dict_get name tools = Some method ->
      method arguments w = (Raised e, w') ->
      execute_tool (JStr name) (JStr call_id) arguments w =
      (Returned (mkToolResponse call_id JNull (Some e)), w')) /\
  (forall name call_id arguments w,
      dict_has name tools = true ->
      (forall fields, arguments <> JDict fields) ->
      execute_tool (JStr name) (JStr call_id) arguments w =
      (Returned (mkToolResponse call_id JNull
                   (Some (fault_text (NotAMapping name arguments)))), w)) /\
  (forall tool_name call_id arguments w,
      (forall id, call_id <> JStr id) ->
      exists w',
        execute_tool tool_name call_id arguments w =
        (Raised (fault_text (ValidationError "ToolResponse" "tool_call_id" call_id)), w')) /\
  (forall name method call_id arguments w o w',
      dict_get name tools = Some method ->
      method arguments w = (o, w') ->
      (forall id, call_id <> JStr id) ->
      execute_tool (JStr name) call_id arguments w =
      (Raised (fault_text (ValidationError "ToolResponse" "tool_call_id" call_id)), w')).
Proof.
  split; [|split; [|split; [|split; [|split]]]].
  - intros tool_name call_id arguments w.
    destruct (execute_tool_shape tool_name call_id arguments w) as (r & w' & E & Hid & _).
    exists r, w'; split; assumption.
  - intros name call_id arguments w Hget.
    rewrite execute_tool_cases, Hget; reflexivity.
  - intros name method call_id arguments w e w' Hget Hrun.
    rewrite execute_tool_cases, Hget, Hrun; reflexivity.
  - intros name call_id arguments w Hhas Hargs.
    rewrite execute_tool_cases.
    assert (Hbind : forall required optional,
               bind_kwargs name required optional arguments w =
               (Raised (fault_text (NotAMapping name arguments)), w)).
    { intros required optional; unfold bind_kwargs.
      destruct arguments; try reflexivity.
      exfalso; eapply Hargs; reflexivity. }
    unfold dict_has, tools in *; cbn [dict_get] in *.
    destruct (String.eqb_spec "get_map" name) as [<-|_];
      [unfold bind; rewrite Hbind; reflexivity|].
    destruct (String.eqb_spec "apply_patch" name) as [<-|_];
      [unfold bind; rewrite Hbind; reflexivity|].
    destruct (String.eqb_spec "search_logs" name) as [<-|_];
      [unfold bind; rewrite Hbind; reflexivity|].
    destruct (String.eqb_spec "run_tests" name) as [<-|_];
      [unfold bind; rewrite Hbind; reflexivity|].
    destruct (String.eqb_spec "file_operations" name) as [<-|_];
      [unfold bind; rewrite Hbind; reflexivity|].
    discriminate.
  - intros tool_name call_id arguments w Hid.
    apply execute_tool_refuses; exact Hid.
  - intros name method call_id arguments w o w' Hget Hrun Hid.
    unfold execute_tool, find_tool, try_except, bind, ret; cbv beta iota.
    rewrite Hget, Hrun.
    destruct o as [r|e]; rewrite !new_ToolResponse_refuses by exact Hid;
      reflexivity.
Qed.

End ToolProperties.

Section AgentProperties.
Context {World : Type} `{Collaborators World}.

(** ** The nodes, one by one *)

Lemma last_item_app {A : Type} (xs : list A) (x : A) :
  last_item (xs ++ [x])%list = Some x.
Proof.
  induction xs as [|y ys IH]; [reflexivity|].
  simpl; rewrite IH.
  destruct (ys ++ [x])%list eqn:E; [destruct ys; discriminate|reflexivity].
Qed.

Lemma last_item_some {A : Type} (xs : list A) (x : A) :
  last_item xs = Some x -> xs = (but_last xs ++ [x])%list.
Proof.
  unfold but_last; induction xs as [|y ys IH]; [discriminate|].
  destruct ys as [|z zs]; simpl.
  - intros E; inversion E; reflexivity.
  - intros E; f_equal; apply IH; exact E.
Qed.

Lemma last_item_none {A : Type} (xs : list A) :
  last_item xs = None -> xs = [].
Proof.
  induction xs as [|y ys IH]; [reflexivity|].
  destruct ys as [|z zs]; [discriminate|].
  intros E; specialize (IH E); discriminate.
Qed.

Lemma string_app_assoc (a b c : string) : ((a ++ b) ++ c = a ++ (b ++ c))%string.
Proof. induction a as [|ch a IH]; simpl; [reflexivity|rewrite IH; reflexivity]. Qed.

Lemma last_item_map {A B : Type} (f : A -> B) (xs : list A) :
  last_item (map f xs) = option_map f (last_item xs).
Proof.
  induction xs as [|x xs IH]; [reflexivity|].
  destruct xs as [|y ys]; [reflexivity|exact IH].
Qed.

Lemma index_last_nonempty {A : Type} (xs : list A) w :
  nonempty xs = true ->
  exists x, last_item xs = Some x /\ index_last xs w = (Returned x, w).
Proof.
  unfold index_last; intros Hne.
  destruct (last_item xs) as [x|] eqn:E.
  - exists x; split; reflexivity.
  - apply last_item_none in E; subst; discriminate.
Qed.

Lemma analyze_input_returns state w :
  _analyze_input state w =
  (Returned (set_iteration_count (set_current_step state "analyzed") 0), w).
Proof.
  unfold _analyze_input, bind.
  destruct (nonempty (messages state)) eqn:Hne.
  - destruct (index_last_nonempty _ w Hne) as (m & _ & ->); reflexivity.
  - reflexivity.
Qed.

Lemma retrieve_context_cases state w :
  _retrieve_context state w =
  match last_item (messages state) with
  | None => (Returned (set_current_step state "context_retrieved"), w)
  | Some m =>
      match vector_search (content m) 3 w with
      | (Returned [], w') =>
          (Returned (set_current_step state "context_retrieved"), w')
      | (Returned (h :: hits), w') =>
          (Returned (set_current_step (with_context state m (h :: hits))
                                      "context_retrieved"), w')
      | (Raised e, w') =>
          (Returned (set_current_step state "context_retrieved"), w')
      end
  end.
Proof.
  unfold _retrieve_context, bind.
  destruct (nonempty (messages state)) eqn:Hne.
  - destruct (index_last_nonempty _ w Hne) as (m & -> & ->).
    unfold try_except, bind.
    destruct (vector_search (content m) 3 w) as [[[|h hits]|e] w']; reflexivity.
  - destruct (messages state); [reflexivity|discriminate].
Qed.

Lemma retrieve_context_returns state w :
  exists state' w',
    _retrieve_context state w = (Returned state', w') /\
    length (messages state') = length (messages state) /\
    tool_calls state' = tool_calls state /\
    max_iterations state' = max_iterations state /\
    iteration_count state' = iteration_count state.
Proof.
  rewrite retrieve_context_cases.
  destruct (last_item (messages state)) as [m|] eqn:Hlast.
  - destruct (vector_search (content m) 3 w) as [[[|h hits]|e] w'];
      eexists _, _; (split; [reflexivity|]); repeat split.
    simpl. rewrite (last_item_some _ _ Hlast) at 2.
    rewrite !length_app; reflexivity.
  - eexists _, _; split; [reflexivity|]; repeat split.
Qed.

Lemma generate_response_cases state w :
  _generate_response state w =
  match chat_completion (messages state) w with
  | (Returned (mkChatCompletion (message :: _)), w') =>
      (Returned
         (set_current_step
            (if nonempty (get_tool_calls message)
             then set_tool_calls (set_messages state (messages state ++ [ai_message message]))
                                 (get_tool_calls message)
             else set_messages state (messages state ++ [ai_message message]))
            "response_generated"), w')
  | (Returned (mkChatCompletion []), w') =>
      (Returned (set_current_step
                   (set_messages state
                      (messages state ++ [generation_error (fault_text IndexError)]))
                   "error"), w')
  | (Raised e, w') =>
      (Returned (set_current_step
                   (set_messages state (messages state ++ [generation_error e]))
                   "error"), w')
  end.
Proof.
  unfold _generate_response, try_except, bind.
  destruct (chat_completion (messages state) w) as [[[[|message rest]]|e] w'];
    reflexivity.
Qed.

Lemma generate_response_returns state w :
  exists state' w' m,
    _generate_response state w = (Returned state', w') /\
    messages state' = (messages state ++ [m])%list /\
    role m = "assistant" /\
    max_iterations state' = max_iterations state /\
    iteration_count state' = iteration_count state /\
    (tool_calls state' = tool_calls state \/
     (tool_calls state' <> [] /\ msg_tool_calls m = Some (tool_calls state'))).
Proof.
  rewrite generate_response_cases.
  destruct (chat_completion (messages state) w) as [[[[|message rest]]|e] w'].
  - eexists _, _, _; split; [reflexivity|]; repeat split; left; reflexivity.
  - destruct (nonempty (get_tool_calls message)) eqn:Hne;
      eexists _, _, _; (split; [reflexivity|]); repeat split.
    + right; split; [|reflexivity].
      simpl; intros E; rewrite E in Hne; discriminate.
    + left; reflexivity.
  - eexists _, _, _; split; [reflexivity|]; repeat split; left; reflexivity.
Qed.

Lemma should_use_tools_iff state :
  _should_use_tools state = "tools" <->
  (tool_calls state <> [] /\ iteration_count state < max_iterations state).
Proof.
  unfold _should_use_tools.
  destruct (tool_calls state) as [|c cs]; simpl.
  - split; [discriminate|]; intros [Hne _]; contradiction.
  - destruct (Z.ltb_spec (iteration_count state) (max_iterations state)).
    + split; [|reflexivity]; intros _; split; [discriminate|assumption].
    + split; [discriminate|]; intros [_ Hlt]; lia.
Qed.

Lemma should_use_tools_branches state :
  _should_use_tools state = "tools" \/ _should_use_tools state = "finalize".
Proof.
  unfold _should_use_tools.
  destruct (nonempty (tool_calls state) && _); [left|right]; reflexivity.
Qed.

(** ** The tool-execution cycle *)

Lemma execute_tool_call_cases c ms w :
  execute_tool_call c ms w =
  match read_call c w with
  | (Returned (name, id, arguments), w1) =>
      match execute_tool name (JStr id) arguments w1 with
      | (Returned r, w2) => (Returned (ms ++ [tool_message r id])%list, w2)
      | (Raised e, w2) => (Returned (ms ++ [tool_error_message e c])%list, w2)
      end
  | (Raised e, w1) => (Returned (ms ++ [tool_error_message e c])%list, w1)
  end.
Proof.
  unfold execute_tool_call, read_call, tool_message, tool_error_message, call_id_of,
    call_function, subscript, loads.
  io_unfold; cbv beta iota.
  destruct (tc_function c) as [[| | | | |items|fields]|]; try reflexivity.
  destruct (dict_get "name" fields) as [name|]; [|reflexivity].
  destruct (dict_get "arguments" fields) as [[| | | | text | |]|]; try reflexivity.
  destruct (json_loads text) as [arguments|e]; [|reflexivity].
  destruct (tc_id c) as [id|]; [|reflexivity].
  destruct (execute_tool name (JStr id) arguments w) as [[r|e] w2]; reflexivity.
Qed.

Lemma read_call_pure c w o w' :
  read_call c w = (o, w') -> w' = w.
Proof.
  unfold read_call, call_function, subscript, loads; intros E.
  io_cases; reflexivity.
Qed.

Lemma read_call_id c w name id arguments w' :
  read_call c w = (Returned (name, id, arguments), w') -> tc_id c = Some id.
Proof.
  unfold read_call, call_function, subscript, loads; intros E.
  io_cases; reflexivity.
Qed.

Lemma execute_tool_call_answered c ms w :
  exists m w',
    execute_tool_call c ms w = (Returned (ms ++ [m])%list, w') /\ answered c w m w'.
Proof.
  rewrite execute_tool_call_cases.
  destruct (read_call c w) as [[[[name id] arguments]|e] w1] eqn:R;
    pose proof (read_call_pure _ _ _ _ R); subst w1.
  - destruct (execute_tool_shape name id arguments w)
      as (r & w2 & E & _ & [[P N] | [N (e & Ee)]]).
    + rewrite E; eexists _, _; split; [reflexivity|].
      eapply answered_result; eauto.
      unfold tool_message; destruct P as [_ ->]; reflexivity.
    + rewrite E; eexists _, _; split; [reflexivity|].
      eapply answered_error; eauto.
      unfold tool_message; rewrite N, Ee; reflexivity.
  - eexists _, _; split; [reflexivity|].
    eapply answered_rejected; eauto.
Qed.

Lemma execute_each_batch calls : forall ms w,
  exists out w',
    execute_each calls ms w = (Returned (ms ++ out)%list, w') /\ batch calls w out w'.
Proof.
  induction calls as [|c rest IH]; intros ms w.
  - exists [], w; simpl; unfold ret; rewrite app_nil_r; split; [reflexivity|constructor].
  - destruct (execute_tool_call_answered c ms w) as (m & w1 & E & A).
    destruct (IH (ms ++ [m])%list w1) as (out & w2 & E2 & B).
    exists (m :: out), w2; split.
    + simpl; unfold bind; rewrite E, E2, <- app_assoc; reflexivity.
    + econstructor; eauto.
Qed.

Lemma execute_tools_returns state w :
  exists out w',
    _execute_tools state w =
    (Returned (mkAgentState (messages state ++ out) [] "tools_executed"
                            (max_iterations state) (iteration_count state + 1)), w') /\
    batch (tool_calls state) w out w'.
Proof.
  destruct (execute_each_batch (tool_calls state) (messages state) w)
    as (out & w' & E & B).
  exists out, w'; split; [|exact B].
  unfold _execute_tools, bind; rewrite E; reflexivity.
Qed.

Lemma answered_message c w m w' :
  answered c w m w' ->
  role m = "tool" /\ tool_call_id m = Some (call_id_of c) /\
  exists text, content m = Some text.
Proof.
  intros [name id arguments r R E P N ->|name id arguments r e R E N Ee ->|e R -> ->];
    simpl; (split; [reflexivity|]); (split; [|eexists; reflexivity]);
    try reflexivity;
    unfold call_id_of; rewrite (read_call_id _ _ _ _ _ _ R); reflexivity.
Qed.

(** ** The graph *)

Lemma run_graph_END steps state trace w :
  run_graph steps END state trace w = (Finished state, trace, w).
Proof. destruct steps; reflexivity. Qed.

Lemma run_graph_step steps n state trace w state' w' :
  n <> END ->
  node_action n state w = (Returned state', w') ->
  run_graph (S steps) n state trace w =
  run_graph steps (next_node n state') state' (trace ++ [n]) w'.
Proof.
  intros Hn E; destruct n; try contradiction; cbn [run_graph]; rewrite E; reflexivity.
Qed.

Lemma run_graph_out_of_steps n state trace w :
  n <> END ->
  run_graph 0 n state trace w = (Stopped recursion_error state, trace, w).
Proof. intros Hn; destruct n; try contradiction; reflexivity. Qed.

Lemma next_after_generation state :
  next_node generate_response state =
  if (_should_use_tools state =? "tools")%string then execute_tools else finalize.
Proof.
  cbn [next_node].
  destruct (should_use_tools_branches state) as [-> | ->]; reflexivity.
Qed.

(** From a generation, with [2 * k + 1] steps left: the run ends, after
    fewer than [k] tool cycles; or it is stopped, after the generation
    that follows its [k]-th tool cycle. *)
Lemma generation_runs k : forall state trace w,
  (exists final trace' w',
      generation_loop state w final trace' w' /\
      (tool_cycles trace' < k)%nat /\
      run_graph (2 * k + 1) generate_response state trace w =
      (Finished final, (trace ++ trace')%list, w')) \/
  (exists reached trace' w',
      generation_rounds state w reached trace' w' /\
      tool_cycles trace' = k /\
      run_graph (2 * k + 1) generate_response state trace w =
      (Stopped recursion_error reached, (trace ++ trace')%list, w')).
Proof.
  induction k as [|k IH]; intros state trace w;
    destruct (generate_response_returns state w) as (state1 & w1 & m & E & _).
  - right; exists state1, [generate_response], w1.
    split; [apply rounds_one; exact E|]; split; [reflexivity|].
    change (2 * 0 + 1)%nat with 1%nat.
    rewrite (run_graph_step _ generate_response _ _ _ _ _ ltac:(discriminate) E).
    rewrite next_after_generation.
    destruct (_ =? "tools")%string; apply run_graph_out_of_steps; discriminate.
  - replace (2 * S k + 1)%nat with (S (S (2 * k + 1))) by lia.
    rewrite (run_graph_step _ generate_response _ _ _ _ _ ltac:(discriminate) E).
    rewrite next_after_generation.
    destruct (should_use_tools_branches state1) as [T|F].
    + destruct (execute_tools_returns state1 w1) as (out & w2 & E2 & _).
      rewrite T; cbn [String.eqb Ascii.eqb Bool.eqb].
      rewrite (run_graph_step _ execute_tools _ _ _ _ _ ltac:(discriminate) E2).
      cbn [next_node].
      destruct (IH (mkAgentState (messages state1 ++ out) [] "tools_executed"
                                 (max_iterations state1) (iteration_count state1 + 1))
                   ((trace ++ [generate_response]) ++ [execute_tools])%list w2)
        as [(final & trace' & w3 & L & Hc & R) | (reached & trace' & w3 & L & Hc & R)];
        rewrite R, <- !app_assoc; [left|right];
        eexists _, (generate_response :: execute_tools :: trace'), _.
      * split; [eapply loop_tools; eauto|].
        split; [unfold tool_cycles in *; simpl; lia|reflexivity].
      * split; [eapply rounds_more; eauto|].
        split; [unfold tool_cycles in *; simpl; lia|reflexivity].
    + rewrite F; cbn [String.eqb Ascii.eqb Bool.eqb].
      rewrite (run_graph_step _ finalize _ _ _ (set_current_step state1 "completed") w1
                 ltac:(discriminate) eq_refl).
      cbn [next_node]; rewrite run_graph_END, <- app_assoc.
      left; exists (set_current_step state1 "completed"), [generate_response; finalize], w1.
      split; [apply loop_finalize; assumption|].
      split; [unfold tool_cycles; simpl; lia|reflexivity].
Qed.

(** Every turn runs analyze, retrieve and then the generation loop: to
    the end, after at most 10 tool cycles; or until the library stops it,
    after the generation that follows the 11th tool cycle. *)
Lemma turn_runs chat maxit w :
  exists state_r w_r,
    after_retrieval chat maxit w = (Returned state_r, w_r) /\
    length (messages state_r) = length chat /\
    tool_calls state_r = [] /\
    max_iterations state_r = maxit /\
    iteration_count state_r = 0 /\
    ((exists final trace w',
         generation_loop state_r w_r final trace w' /\
         (tool_cycles trace < 11)%nat /\
         ainvoke (initial_state chat maxit) w =
         (Finished final, analyze :: retrieve :: trace, w')) \/
     (exists reached trace w',
         generation_rounds state_r w_r reached trace w' /\
         tool_cycles trace = 11%nat /\
         ainvoke (initial_state chat maxit) w =
         (Stopped recursion_error reached, analyze :: retrieve :: trace, w'))).
Proof.
  unfold after_retrieval, ainvoke, bind.
  rewrite analyze_input_returns.
  destruct (retrieve_context_returns
              (set_iteration_count (set_current_step (initial_state chat maxit) "analyzed") 0) w)
    as (state_r & w_r & E & Hlen & Hcalls & Hmax & Hcount).
  rewrite E; exists state_r, w_r.
  simpl in Hlen; rewrite length_map in Hlen.
  repeat (split; [first [reflexivity | assumption]|]).
  change recursion_limit with (S (S (2 * 11 + 1))).
  rewrite (run_graph_step _ analyze _ _ _ _ _ ltac:(discriminate)
             (analyze_input_returns _ _)).
  cbn [next_node].
  rewrite (run_graph_step _ retrieve _ _ _ _ _ ltac:(discriminate) E).
  cbn [next_node].
  destruct (generation_runs 11 state_r (([] ++ [analyze]) ++ [retrieve])%list w_r)
    as [(final & trace & w' & L & Hc & R) | (reached & trace & w' & L & Hc & R)];
    rewrite R; [left|right]; eexists _, _, _; repeat split; eauto.
Qed.

Lemma generation_loop_counts state w final trace w' :
  generation_loop state w final trace w' ->
  max_iterations final = max_iterations state /\
  iteration_count final = iteration_count state + Z.of_nat (tool_cycles trace) /\
  iteration_count final <= Z.max (iteration_count state) (max_iterations state).
Proof.
  induction 1 as [state w state1 w1 E F
                 |state w state1 w1 state2 w2 final trace w3 E T E2 L IH].
  - destruct (generate_response_returns state w)
      as (s & w' & m & E' & _ & _ & Hmax & Hcount & _).
    rewrite E in E'; inversion E'; subst s w'; simpl.
    rewrite Hmax, Hcount; repeat split; lia.
  - destruct (generate_response_returns state w)
      as (s & w' & m & E' & _ & _ & Hmax & Hcount & _).
    rewrite E in E'; inversion E'; subst s w'.
    destruct (execute_tools_returns state1 w1) as (out & w'' & E2' & _).
    rewrite E2 in E2'; inversion E2'; subst state2 w''; simpl in IH.
    apply should_use_tools_iff in T.
    destruct IH as (IHmax & IHcount & IHle).
    unfold tool_cycles in *; simpl.
    repeat split; lia.
Qed.

Lemma generation_rounds_counts state w reached trace w' :
  generation_rounds state w reached trace w' ->
  max_iterations reached = max_iterations state /\
  iteration_count reached = iteration_count state + Z.of_nat (tool_cycles trace) /\
  ((0 < tool_cycles trace)%nat -> iteration_count reached <= max_iterations state).
Proof.
  induction 1 as [state w state1 w1 E
                 |state w state1 w1 state2 w2 reached trace w3 E T E2 L IH];
    destruct (generate_response_returns state w)
      as (s & w' & m & E' & _ & _ & Hmax & Hcount & _);
    rewrite E in E'; inversion E'; subst s w'.
  - unfold tool_cycles; simpl; repeat split; lia.
  - destruct (execute_tools_returns state1 w1) as (out & w'' & E2' & _).
    rewrite E2 in E2'; inversion E2'; subst state2 w''; simpl in IH.
    apply should_use_tools_iff in T.
    destruct IH as (IHmax & IHcount & IHle).
    unfold tool_cycles in *; simpl.
    repeat split; lia.
Qed.

(** The nodes of the generation loop: two per tool cycle, then the last
    generation, and the finalize node when the run gets to it. *)
Lemma generation_loop_length state w final trace w' :
  generation_loop state w final trace w' ->
  length trace = (2 * tool_cycles trace + 2)%nat /\
  exists nodes, trace = (nodes ++ [generate_response; finalize])%list.
Proof.
  induction 1 as [state w state1 w1 E F
                 |state w state1 w1 state2 w2 final trace w3 E T E2 L [IH (nodes & Hn)]].
  - split; [reflexivity|exists []; reflexivity].
  - split; [unfold tool_cycles in *; simpl; lia|].
    exists (generate_response :: execute_tools :: nodes); rewrite Hn; reflexivity.
Qed.

Lemma generation_rounds_length state w reached trace w' :
  generation_rounds state w reached trace w' ->
  length trace = (2 * tool_cycles trace + 1)%nat.
Proof.
  induction 1 as [state w state1 w1 E
                 |state w state1 w1 state2 w2 reached trace w3 E T E2 L IH].
  - reflexivity.
  - unfold tool_cycles in *; simpl; lia.
Qed.

(** A run is stopped only with a budget of 11 or more. *)
Lemma stopped_budget state w reached trace w' :
  generation_rounds state w reached trace w' ->
  iteration_count state = 0 ->
  tool_cycles trace = 11%nat ->
  11 <= max_iterations state /\ iteration_count reached = 11.
Proof.
  intros L Hcount Hc.
  destruct (generation_rounds_counts _ _ _ _ _ L) as (_ & Hreached & Hle).
  rewrite Hc, Hcount in *; split; [|lia].
  specialize (Hle ltac:(lia)); lia.
Qed.

(** A turn with a budget of 10 or less runs to the end. *)
Lemma turn_completes chat maxit w :
  maxit <= 10 ->
  exists state_r w_r final trace w',
    after_retrieval chat maxit w = (Returned state_r, w_r) /\
    length (messages state_r) = length chat /\
    tool_calls state_r = [] /\
    max_iterations state_r = maxit /\
    iteration_count state_r = 0 /\
    generation_loop state_r w_r final trace w' /\
    ainvoke (initial_state chat maxit) w =
    (Finished final, analyze :: retrieve :: trace, w').
Proof.
  intros Hbudget.
  destruct (turn_runs chat maxit w)
    as (state_r & w_r & Hr & Hlen & Hcalls & Hmax & Hcount
        & [(final & trace & w' & L & _ & R) | (reached & trace & w' & L & Hc & _)]).
  - exists state_r, w_r, final, trace, w'; repeat split; assumption.
  - destruct (stopped_budget _ _ _ _ _ L Hcount Hc) as [Hb _]; lia.
Qed.

(** C2: after generation the graph takes the tools branch exactly when
    there is a pending tool call and [iteration_count < max_iterations]
    (and the finalize branch otherwise); a tool-execution cycle adds
    exactly one to [iteration_count]; and every turn ends, after as many
    tool cycles as its [iteration_count] says, which is at most
    [max_iterations] (no cycle at all when the budget is zero or less).
    It ends at the finalize node, after 10 tool cycles at most; or, with
    a budget of 11 or more only, by the exception of the graph library
    for a run that has not ended within 25 steps, after 11 tool cycles. *)
Theorem tool_loop_bounded :
  (forall state,
      (_should_use_tools state = "tools" <->
       tool_calls state <> [] /\ iteration_count state < max_iterations state) /\
      (_should_use_tools state = "tools" \/ _should_use_tools state = "finalize") /\
      next_node generate_response state =
      (if (_should_use_tools state =? "tools")%string then execute_tools else finalize)) /\
  (forall state w,
      exists state' w',
        _execute_tools state w = (Returned state', w') /\
        iteration_count state' = iteration_count state + 1 /\
        max_iterations state' = max_iterations state) /\
  (forall chat maxit w,
      exists run trace w',
        ainvoke (initial_state chat maxit) w = (run, trace, w') /\
        iteration_count (run_state run) = Z.of_nat (tool_cycles trace) /\
        Z.of_nat (tool_cycles trace) <= Z.max 0 maxit /\
        (length trace <= recursion_limit)%nat /\
        match run with
        | Finished final =>
            (tool_cycles trace <= 10)%nat /\
            exists nodes, trace = (nodes ++ [generate_response; finalize])%list
        | Stopped text reached =>
            text = recursion_error /\ 11 <= maxit /\ tool_cycles trace = 11%nat
        end).
Proof.
  split; [|split].
  - intros state; split; [apply should_use_tools_iff|].
    split; [apply should_use_tools_branches|apply next_after_generation].
  - intros state w.
    destruct (execute_tools_returns state w) as (out & w' & E & _).
    eexists _, _; split; [exact E|]; split; reflexivity.
  - intros chat maxit w.
    destruct (turn_runs chat maxit w)
      as (state_r & w_r & _ & _ & _ & Hmax & Hcount
          & [(final & trace & w' & L & Hc & R) | (reached & trace & w' & L & Hc & R)]).
    + destruct (generation_loop_length _ _ _ _ _ L) as (Hlen & nodes & Hn).
      apply generation_loop_counts in L; destruct L as (_ & Hf & Hle).
      exists (Finished final), (analyze :: retrieve :: trace), w'; split; [exact R|].
      rewrite Hmax, Hcount in *.
      unfold recursion_limit, tool_cycles in *; cbn [run_state length filter].
      repeat split; try lia.
      exists (analyze :: retrieve :: nodes); rewrite Hn; reflexivity.
    + pose proof (generation_rounds_length _ _ _ _ _ L) as Hlen.
      destruct (stopped_budget _ _ _ _ _ L Hcount Hc) as [Hb Hr].
      exists (Stopped recursion_error reached), (analyze :: retrieve :: trace), w';
        split; [exact R|].
      rewrite Hmax in *.
      unfold recursion_limit, tool_cycles in *; cbn [run_state length filter].
      repeat split; try lia.
Qed.

(** C8: a tool-execution cycle answers every pending tool call, in the
    order the model emitted them, each in the world the previous call left:
    it appends exactly one tool-role message per call, carrying the call's
    id and either the serialized result of the registry, the error text of
    the registry, or the text of the failure to read the call; a failure
    on one call does not stop the calls after it; and the pending tool
    calls are cleared (and [iteration_count] incremented) after the batch. *)
Theorem execute_tools_answers_each_call state w :
  exists out w',
    _execute_tools state w =
    (Returned (mkAgentState (messages state ++ out) [] "tools_executed"
                            (max_iterations state) (iteration_count state + 1)), w') /\
    batch (tool_calls state) w out w' /\
    length out = length (tool_calls state) /\
    Forall2 (fun c m => role m = "tool" /\ tool_call_id m = Some (call_id_of c) /\
                        exists text, content m = Some text)
            (tool_calls state) out.
Proof.
  destruct (execute_tools_returns state w) as (out & w' & E & B).
  exists out, w'; split; [exact E|]; split; [exact B|].
  assert (F : Forall2 (fun c m => role m = "tool" /\ tool_call_id m = Some (call_id_of c) /\
                                  exists text, content m = Some text)
                      (tool_calls state) out).
  { clear E; induction B as [|c rest w0 m w1 ms w2 A B IH]; constructor; [|exact IH].
    apply (answered_message _ _ _ _ A). }
  split; [|exact F].
  symmetry; eapply Forall2_length; exact F.
Qed.

(** ** The final answer *)

Lemma is_assistant_iff m : is_assistant m = true <-> role m = "assistant".
Proof. unfold is_assistant; apply String.eqb_eq. Qed.

Lemma is_assistant_false m : is_assistant m = false <-> role m <> "assistant".
Proof. unfold is_assistant; apply String.eqb_neq. Qed.

Lemma filter_no_assistant ms :
  Forall (fun m => role m <> "assistant") ms -> filter is_assistant ms = [].
Proof.
  induction 1 as [|m ms Hm _ IH]; [reflexivity|].
  simpl; apply is_assistant_false in Hm; rewrite Hm; exact IH.
Qed.

Lemma last_assistant_spec ms a :
  last_assistant ms = Some a <->
  exists before after,
    ms = (before ++ a :: after)%list /\ role a = "assistant" /\
    Forall (fun m => role m <> "assistant") after.
Proof.
  unfold last_assistant; split.
  - revert a; induction ms as [|x ms' IH] using rev_ind; intros a E; [discriminate|].
    rewrite filter_app in E; simpl in E.
    destruct (is_assistant x) eqn:Hx.
    + rewrite last_item_app in E; inversion E; subst x.
      exists ms', []; repeat split; [apply is_assistant_iff; exact Hx|constructor].
    + rewrite app_nil_r in E.
      destruct (IH a E) as (before & after & -> & Ha & Hafter).
      exists before, (after ++ [x])%list; split; [|split; [exact Ha|]].
      * rewrite <- app_assoc; reflexivity.
      * apply Forall_app; split; [exact Hafter|].
        constructor; [apply is_assistant_false; exact Hx|constructor].
  - intros (before & after & -> & Ha & Hafter).
    rewrite filter_app; simpl.
    apply is_assistant_iff in Ha; rewrite Ha.
    rewrite (filter_no_assistant _ Hafter).
    apply last_item_app.
Qed.

Lemma final_answer_cases ms :
  match last_assistant ms with
  | Some a =>
      response (final_answer ms) = content a /\ status (final_answer ms) = "success"
  | None =>
      response (final_answer ms) = Some "No response generated" /\
      status (final_answer ms) = "error"
  end /\ rr_messages (final_answer ms) = ms.
Proof.
  unfold final_answer, last_assistant, is_assistant.
  destruct (last_item _) as [a|]; simpl; repeat split.
Qed.

Lemma final_answer_success_iff ms :
  status (final_answer ms) = "success" <-> exists m, In m ms /\ role m = "assistant".
Proof.
  destruct (final_answer_cases ms) as [Hc _].
  destruct (last_assistant ms) as [a|] eqn:E.
  - destruct Hc as [_ ->]; split; [intros _|reflexivity].
    apply last_assistant_spec in E; destruct E as (before & after & -> & Ha & _).
    exists a; split; [apply in_elt|exact Ha].
  - destruct Hc as [_ ->]; split; [discriminate|].
    intros (m & Hin & Hm); exfalso.
    unfold last_assistant in E; apply last_item_none in E.
    assert (Hf : In m (filter is_assistant ms))
      by (apply filter_In; split; [exact Hin|apply is_assistant_iff; exact Hm]).
    rewrite E in Hf; exact Hf.
Qed.

(** A turn ends right after a generation: its last message is the
    assistant-role message of that generation. *)
Lemma generation_loop_ends_with_assistant state w final trace w' :
  generation_loop state w final trace w' ->
  exists before a, messages final = (before ++ [a])%list /\ role a = "assistant".
Proof.
  induction 1 as [state w state1 w1 E F
                 |state w state1 w1 state2 w2 final trace w3 E T E2 L IH];
    [|exact IH].
  destruct (generate_response_returns state w)
    as (s & w' & m & E' & Hm & Hr & _).
  rewrite E in E'; inversion E'; subst s w'.
  exists (messages state), m; split; assumption.
Qed.

Lemma process_request_answer chat maxit w final trace w' :
  ainvoke (initial_state chat maxit) w = (Finished final, trace, w') ->
  process_request chat maxit w = (final_answer (messages final), w').
Proof. unfold process_request; intros ->; reflexivity. Qed.

Lemma process_request_stopped chat maxit w text reached trace w' :
  ainvoke (initial_state chat maxit) w = (Stopped text reached, trace, w') ->
  process_request chat maxit w = (failure_answer text (messages reached), w').
Proof. unfold process_request; intros ->; reflexivity. Qed.

(** The messages of the answer are the ones of the state the run ended
    in, however it ended. *)
Lemma process_request_messages chat maxit w run trace w' :
  ainvoke (initial_state chat maxit) w = (run, trace, w') ->
  rr_messages (fst (process_request chat maxit w)) = messages (run_state run).
Proof.
  intros R; destruct run as [final|text reached].
  - rewrite (process_request_answer _ _ _ _ _ _ R).
    apply (proj2 (final_answer_cases (messages final))).
  - rewrite (process_request_stopped _ _ _ _ _ _ _ R); reflexivity.
Qed.

(** C3, as amended: the answer of a turn that ran to the end is built
    from its final messages: the final text is the content of the most
    recent assistant-role message (the last message whose role is
    assistant), and the status is [success] exactly when the final
    messages hold an assistant-role message, whatever its content, and
    [error] otherwise.  A turn that ran to the end always holds one: the
    message of its last generation.  A turn that the graph library stops
    at its limit of steps (with a budget of 11 or more only) is answered
    with status [error] and the text of that exception. *)
Theorem final_answer_is_last_assistant :
  (forall ms,
      match last_assistant ms with
      | Some a =>
          response (final_answer ms) = content a /\ status (final_answer ms) = "success"
      | None =>
          response (final_answer ms) = Some "No response generated" /\
          status (final_answer ms) = "error"
      end /\ rr_messages (final_answer ms) = ms) /\
  (forall ms a,
      last_assistant ms = Some a <->
      exists before after,
        ms = (before ++ a :: after)%list /\ role a = "assistant" /\
        Forall (fun m => role m <> "assistant") after) /\
  (forall ms,
      status (final_answer ms) = "success" <->
      exists m, In m ms /\ role m = "assistant") /\
  (forall chat maxit w,
      exists run trace w',
        ainvoke (initial_state chat maxit) w = (run, trace, w') /\
        match run with
        | Finished final =>
            exists before a,
              process_request chat maxit w = (final_answer (messages final), w') /\
              messages final = (before ++ [a])%list /\
              role a = "assistant" /\
              response (final_answer (messages final)) = content a /\
              status (final_answer (messages final)) = "success"
        | Stopped text reached =>
            text = recursion_error /\
            11 <= maxit /\
            process_request chat maxit w =
            (mkRequestResult (Some ("Agent processing failed: " ++ text)) None
                             (messages reached) "error", w')
        end).
Proof.
  split; [apply final_answer_cases|].
  split; [apply last_assistant_spec|].
  split; [apply final_answer_success_iff|].
  intros chat maxit w.
  destruct (turn_runs chat maxit w)
    as (state_r & w_r & _ & _ & _ & Hmax & Hcount
        & [(final & trace & w' & L & _ & R) | (reached & trace & w' & L & Hc & R)]).
  - destruct (generation_loop_ends_with_assistant _ _ _ _ _ L) as (before & a & Hm & Ha).
    exists (Finished final), (analyze :: retrieve :: trace), w'; split; [exact R|].
    exists before, a.
    split; [apply (process_request_answer _ _ _ _ _ _ R)|].
    split; [exact Hm|]; split; [exact Ha|].
    assert (Hlast : last_assistant (messages final) = Some a).
    { apply last_assistant_spec; exists before, []; rewrite Hm; repeat split; auto. }
    destruct (final_answer_cases (messages final)) as [Hc _].
    rewrite Hlast in Hc; exact Hc.
  - destruct (stopped_budget _ _ _ _ _ L Hcount Hc) as [Hb _].
    exists (Stopped recursion_error reached), (analyze :: retrieve :: trace), w';
      split; [exact R|].
    split; [reflexivity|]; split; [rewrite <- Hmax; exact Hb|].
    apply (process_request_stopped _ _ _ _ _ _ _ R).
Qed.

(** ** Tool messages and the calls they answer *)

Lemma matched_snoc_assistant n ms a :
  tool_messages_matched n ms ->
  role a = "assistant" ->
  tool_messages_matched n (ms ++ [a]).
Proof.
  intros Hms Ha before m after Heq Hn Hrole.
  destruct after as [|x after'] using rev_ind.
  - apply app_inj_tail in Heq; destruct Heq as [_ <-].
    rewrite Ha in Hrole; discriminate.
  - clear IHafter'.
    change (before ++ m :: after' ++ [x])%list
      with (before ++ (m :: after') ++ [x])%list in Heq.
    rewrite app_assoc in Heq.
    apply app_inj_tail in Heq; destruct Heq as [Heq _].
    exact (Hms before m after' Heq Hn Hrole).
Qed.

Lemma last_assistant_behind_tools pre a tools_ :
  role a = "assistant" ->
  Forall (fun m => role m = "tool") tools_ ->
  last_assistant ((pre ++ [a]) ++ tools_) = Some a.
Proof.
  intros Ha Htools; apply last_assistant_spec.
  exists pre, tools_; rewrite <- app_assoc; repeat split; [exact Ha|].
  eapply Forall_impl; [|exact Htools].
  intros m Hm; simpl in Hm; rewrite Hm; discriminate.
Qed.

Lemma matched_app_tools n pre a calls out :
  tool_messages_matched n (pre ++ [a]) ->
  role a = "assistant" ->
  msg_tool_calls a = Some calls ->
  Forall (fun m => role m = "tool" /\
                   exists c, In c calls /\ tool_call_id m = Some (call_id_of c)) out ->
  tool_messages_matched n ((pre ++ [a]) ++ out).
Proof.
  intros Hpre Ha Hcalls Hout before m after Heq Hn Hrole.
  apply app_eq_app in Heq.
  destruct Heq as (l & [[Hx Hy] | [Hx Hy]]).
  - destruct l as [|y l'].
    + rewrite app_nil_r in Hx; simpl in Hy; subst before out.
      apply Forall_inv in Hout; destruct Hout as (_ & c & Hc & Hid).
      exists a, calls, c; repeat split; auto.
      rewrite <- (app_nil_r (pre ++ [a])).
      apply last_assistant_behind_tools; [exact Ha|constructor].
    + simpl in Hy; inversion Hy; subst y.
      apply (Hpre before m l' Hx Hn Hrole).
  - subst before out.
    apply Forall_app in Hout; destruct Hout as [Hl Hm].
    apply Forall_inv in Hm; destruct Hm as (_ & c & Hc & Hid).
    exists a, calls, c; repeat split; auto.
    apply last_assistant_behind_tools; [exact Ha|].
    eapply Forall_impl; [|exact Hl]; intros x [Hx _]; exact Hx.
Qed.

Lemma batch_answers_calls calls w out w' :
  batch calls w out w' ->
  Forall (fun m => role m = "tool" /\
                   exists c, In c calls /\ tool_call_id m = Some (call_id_of c)) out.
Proof.
  induction 1 as [|c rest w m w1 ms w2 A B IH]; constructor.
  - destruct (answered_message _ _ _ _ A) as (R & I & _).
    split; [exact R|]; exists c; split; [left; reflexivity|exact I].
  - eapply Forall_impl; [|exact IH].
    intros x (R & c' & Hin & I); split; [exact R|].
    exists c'; split; [right; exact Hin|exact I].
Qed.

Lemma generation_loop_matched n state w final trace w' :
  generation_loop state w final trace w' ->
  tool_calls state = [] ->
  tool_messages_matched n (messages state) ->
  tool_messages_matched n (messages final).
Proof.
  induction 1 as [state w state1 w1 E F
                 |state w state1 w1 state2 w2 final trace w3 E T E2 L IH];
    intros Hcalls Hinv;
    destruct (generate_response_returns state w)
      as (s & w' & a & E' & Hm & Ha & _ & _ & Hpending);
    rewrite E in E'; inversion E'; subst s w'.
  - simpl; rewrite Hm; apply matched_snoc_assistant; assumption.
  - destruct (execute_tools_returns state1 w1) as (out & w'' & E2' & B).
    rewrite E2 in E2'; inversion E2'; subst state2 w''.
    apply IH; [reflexivity|]; simpl.
    destruct Hpending as [Hsame | [_ Hmsg]].
    + apply should_use_tools_iff in T; destruct T as [T _].
      rewrite Hsame, Hcalls in T; contradiction.
    + rewrite Hm.
      apply (matched_app_tools n (messages state) a (tool_calls state1) out);
        [apply matched_snoc_assistant; assumption | exact Ha | exact Hmsg |].
      apply (batch_answers_calls _ _ _ _ B).
Qed.

Lemma generation_rounds_matched n state w reached trace w' :
  generation_rounds state w reached trace w' ->
  tool_calls state = [] ->
  tool_messages_matched n (messages state) ->
  tool_messages_matched n (messages reached).
Proof.
  induction 1 as [state w state1 w1 E
                 |state w state1 w1 state2 w2 reached trace w3 E T E2 L IH];
    intros Hcalls Hinv;
    destruct (generate_response_returns state w)
      as (s & w' & a & E' & Hm & Ha & _ & _ & Hpending);
    rewrite E in E'; inversion E'; subst s w'.
  - rewrite Hm; apply matched_snoc_assistant; assumption.
  - destruct (execute_tools_returns state1 w1) as (out & w'' & E2' & B).
    rewrite E2 in E2'; inversion E2'; subst state2 w''.
    apply IH; [reflexivity|]; simpl.
    destruct Hpending as [Hsame | [_ Hmsg]].
    + apply should_use_tools_iff in T; destruct T as [T _].
      rewrite Hsame, Hcalls in T; contradiction.
    + rewrite Hm.
      apply (matched_app_tools n (messages state) a (tool_calls state1) out);
        [apply matched_snoc_assistant; assumption | exact Ha | exact Hmsg |].
      apply (batch_answers_calls _ _ _ _ B).
Qed.

(** C7, as amended: in the messages a turn ends with, which are the ones
    its answer returns (whether the run got to the end or was stopped at
    the limit of steps), each tool-role message appended during the turn
    carries the id of one of the tool calls of the most recent
    assistant-role message before it; for a call with no id it carries
    ["unknown"]. *)
Theorem tool_messages_answer_last_assistant chat maxit w :
  exists run trace w',
    ainvoke (initial_state chat maxit) w = (run, trace, w') /\
    rr_messages (fst (process_request chat maxit w)) = messages (run_state run) /\
    forall before m after,
      messages (run_state run) = (before ++ m :: after)%list ->
      (length chat <= length before)%nat ->
      role m = "tool" ->
      exists a calls c,
        last_assistant before = Some a /\
        msg_tool_calls a = Some calls /\
        In c calls /\
        tool_call_id m = Some (match tc_id c with
                               | Some id => id
                               | None => "unknown"
                               end).
Proof.
  assert (Hinit : forall state_r,
             length (messages state_r) = length chat ->
             tool_messages_matched (length chat) (messages state_r)).
  { intros state_r Hlen before m after Heq Hn _; exfalso.
    apply (f_equal (@length Message)) in Heq.
    rewrite Hlen, length_app in Heq; simpl in Heq; lia. }
  destruct (turn_runs chat maxit w)
    as (state_r & w_r & _ & Hlen & Hcalls & _ & _
        & [(final & trace & w' & L & _ & R) | (reached & trace & w' & L & _ & R)]).
  - exists (Finished final), (analyze :: retrieve :: trace), w'; split; [exact R|].
    split; [apply (process_request_messages _ _ _ _ _ _ R)|].
    apply (generation_loop_matched (length chat) _ _ _ _ _ L Hcalls (Hinit _ Hlen)).
  - exists (Stopped recursion_error reached), (analyze :: retrieve :: trace), w';
      split; [exact R|].
    split; [apply (process_request_messages _ _ _ _ _ _ R)|].
    apply (generation_rounds_matched (length chat) _ _ _ _ _ L Hcalls (Hinit _ Hlen)).
Qed.

(** ** Retrieval and generation within a turn *)

Lemma final_answer_snoc ms a :
  role a = "assistant" ->
  final_answer (ms ++ [a]) =
  mkRequestResult (content a)
                  (Some (match msg_tool_calls a with
                         | Some calls => calls
                         | None => []
                         end))
                  (ms ++ [a]) "success".
Proof.
  intros Ha; unfold final_answer.
  rewrite filter_app; simpl.
  apply String.eqb_eq in Ha; rewrite Ha.
  rewrite last_item_app; reflexivity.
Qed.

(** A turn whose generation leaves no tool call pending ends there. *)
Lemma turn_ends_after_generation chat maxit w state_r w_r state_g w_g :
  after_retrieval chat maxit w = (Returned state_r, w_r) ->
  _generate_response state_r w_r = (Returned state_g, w_g) ->
  tool_calls state_g = [] ->
  ainvoke (initial_state chat maxit) w =
  (Finished (set_current_step state_g "completed"),
   [analyze; retrieve; generate_response; finalize], w_g).
Proof.
  unfold after_retrieval, ainvoke, bind.
  rewrite analyze_input_returns.
  destruct (_retrieve_context _ w) as [[s|e] w0] eqn:E; [|discriminate].
  intros Hr Hg Hcalls; inversion Hr; subst s w0.
  change recursion_limit with (S (S (S (S 21)))).
  rewrite (run_graph_step _ analyze _ _ _ _ _ ltac:(discriminate)
             (analyze_input_returns _ _)).
  cbn [next_node].
  rewrite (run_graph_step _ retrieve _ _ _ _ _ ltac:(discriminate) E).
  cbn [next_node].
  rewrite (run_graph_step _ generate_response _ _ _ _ _ ltac:(discriminate) Hg).
  rewrite next_after_generation.
  unfold _should_use_tools; rewrite Hcalls.
  cbn [nonempty andb String.eqb Ascii.eqb Bool.eqb].
  rewrite (run_graph_step _ finalize _ _ _ (set_current_step state_g "completed") w_g
             ltac:(discriminate) eq_refl).
  cbn [next_node]; rewrite run_graph_END; reflexivity.
Qed.

Lemma after_retrieval_no_pending chat maxit w state_r w_r :
  after_retrieval chat maxit w = (Returned state_r, w_r) ->
  tool_calls state_r = [].
Proof.
  intros E.
  destruct (turn_runs chat maxit w) as (s & w0 & E' & _ & Hcalls & _).
  rewrite E in E'; inversion E'; subst; exact Hcalls.
Qed.

(** C1: what the code does when the gateway raises at the first
    generation of a turn: it appends an assistant-role message with the
    text of the error, does not call the gateway again and raises nothing
    to the caller, but the status it returns is [success], not [error]. *)
Theorem generation_failure_reports_success chat maxit w state_r w_r e w1 :
  after_retrieval chat maxit w = (Returned state_r, w_r) ->
  chat_completion (messages state_r) w_r = (Raised e, w1) ->
  process_request chat maxit w =
  (mkRequestResult (Some ("Error generating response: " ++ e)) (Some [])
                   (messages state_r ++ [generation_error e]) "success",
   w1).
Proof.
  intros Hr Hg.
  pose proof (after_retrieval_no_pending _ _ _ _ _ Hr) as Hcalls.
  assert (G : _generate_response state_r w_r =
              (Returned (set_current_step
                           (set_messages state_r
                              (messages state_r ++ [generation_error e])) "error"), w1))
    by (rewrite generate_response_cases, Hg; reflexivity).
  rewrite (process_request_answer _ _ _ _ _ _
             (turn_ends_after_generation _ _ _ _ _ _ _ Hr G Hcalls)).
  simpl; rewrite final_answer_snoc; reflexivity.
Qed.

(** C6: when the search of the vector store raises, the turn goes on: the
    messages reach the generation as they were given, and a reply of the
    gateway with no tool call completes the turn with status [success]. *)
Theorem retrieval_failure_is_absorbed chat maxit w q e w1 :
  last_item chat = Some q ->
  vector_search (Some (cm_content q)) 3 w = (Raised e, w1) ->
  after_retrieval chat maxit w =
  (Returned (mkAgentState (messages (initial_state chat maxit)) []
                          "context_retrieved" maxit 0), w1) /\
  forall message rest w2,
    chat_completion (messages (initial_state chat maxit)) w1 =
    (Returned (mkChatCompletion (message :: rest)), w2) ->
    get_tool_calls message = [] ->
    process_request chat maxit w =
    (mkRequestResult (get_content message) (Some [])
                     (messages (initial_state chat maxit) ++ [ai_message message])
                     "success",
     w2).
Proof.
  intros Hq Hsearch.
  assert (Hr : after_retrieval chat maxit w =
               (Returned (mkAgentState (messages (initial_state chat maxit)) []
                                       "context_retrieved" maxit 0), w1)).
  { unfold after_retrieval, bind.
    rewrite analyze_input_returns, retrieve_context_cases.
    cbn [messages set_iteration_count set_current_step initial_state].
    rewrite last_item_map, Hq.
    cbn [option_map content]; rewrite Hsearch; reflexivity. }
  split; [exact Hr|].
  intros message rest w2 Hg Hcalls.
  assert (G : _generate_response
                (mkAgentState (messages (initial_state chat maxit)) []
                              "context_retrieved" maxit 0) w1 =
              (Returned (mkAgentState
                           (messages (initial_state chat maxit) ++ [ai_message message])
                           [] "response_generated" maxit 0), w2)).
  { rewrite generate_response_cases.
    cbn [messages]; rewrite Hg, Hcalls; reflexivity. }
  rewrite (process_request_answer _ _ _ _ _ _
             (turn_ends_after_generation _ _ _ _ _ _ _ Hr G eq_refl)).
  cbn [messages set_current_step]; rewrite final_answer_snoc by reflexivity.
  unfold ai_message; cbn [content msg_tool_calls]; rewrite Hcalls; reflexivity.
Qed.

(** C9, as amended: when the search returns at least one hit, the
    passages are put in front of the content of the last message of the
    sequence, whatever its role (the last user message when the sequence
    ends with it), as a context block that ends with the original content,
    verbatim; the message keeps its role, and no other message changes. *)
Theorem retrieval_rewrites_last_message state w before m hits w' :
  messages state = (before ++ [m])%list ->
  vector_search (content m) 3 w = (Returned hits, w') ->
  hits <> [] ->
  exists rewritten,
    _retrieve_context state w =
    (Returned (mkAgentState (before ++ [rewritten]) (tool_calls state)
                            "context_retrieved" (max_iterations state)
                            (iteration_count state)), w') /\
    role rewritten = role m /\
    msg_tool_calls rewritten = msg_tool_calls m /\
    tool_call_id rewritten = tool_call_id m /\
    content rewritten =
    Some ("Context: " ++ join newline (map hit_text hits) ++ newline ++ newline
          ++ "Query: " ++ fmt_content (content m)) /\
    forall query, content m = Some query ->
                  exists block, content rewritten = Some (block ++ query).
Proof.
  intros Hm Hsearch Hhits.
  exists (set_content m
            (Some ("Context: " ++ join newline (map hit_text hits) ++ newline ++ newline
                   ++ "Query: " ++ fmt_content (content m)))).
  split; [|repeat split].
  - rewrite retrieve_context_cases, Hm, last_item_app, Hsearch.
    destruct hits as [|h hits]; [contradiction|].
    unfold with_context, set_current_step, set_messages.
    cbn [messages tool_calls max_iterations iteration_count].
    rewrite Hm; unfold but_last; rewrite removelast_last; reflexivity.
  - intros query Hquery; cbn [content set_content]; rewrite Hquery.
    cbn [fmt_content].
    exists ("Context: " ++ join newline (map hit_text hits) ++ newline ++ newline
            ++ "Query: ").
    rewrite !string_app_assoc; reflexivity.
Qed.

(** C10: a turn started with no message does not fail on indexing: the
    analyze node returns without reading a message, the retrieve node
    returns without searching (the world is untouched), the generation
    node runs next, on the empty sequence, and the turn goes on from
    there: to the end, where it returns the answer built from its final
    messages; or, with a budget of 11 or more only, until the graph
    library stops it at its limit of steps, which is answered with the
    text of that exception (no index error). *)
Theorem empty_turn_reaches_generation maxit w :
  _analyze_input (initial_state [] maxit) w =
  (Returned (mkAgentState [] [] "analyzed" maxit 0), w) /\
  _retrieve_context (mkAgentState [] [] "analyzed" maxit 0) w =
  (Returned (mkAgentState [] [] "context_retrieved" maxit 0), w) /\
  exists run trace w',
    ainvoke (initial_state [] maxit) w =
    (run, analyze :: retrieve :: generate_response :: trace, w') /\
    match run with
    | Finished final =>
        generation_loop (mkAgentState [] [] "context_retrieved" maxit 0) w final
                        (generate_response :: trace) w' /\
        process_request [] maxit w = (final_answer (messages final), w')
    | Stopped text reached =>
        generation_rounds (mkAgentState [] [] "context_retrieved" maxit 0) w reached
                          (generate_response :: trace) w' /\
        text = recursion_error /\
        11 <= maxit /\
        process_request [] maxit w =
        (mkRequestResult (Some ("Agent processing failed: " ++ text)) None
                         (messages reached) "error", w')
    end.
Proof.
  split; [apply analyze_input_returns|].
  split; [rewrite retrieve_context_cases; reflexivity|].
  destruct (turn_runs [] maxit w)
    as (state_r & w_r & Hr & _ & _ & Hmax & Hcount
        & [(final & trace & w' & L & _ & R) | (reached & trace & w' & L & Hc & R)]);
    unfold after_retrieval, bind in Hr;
    rewrite analyze_input_returns, retrieve_context_cases in Hr;
    cbn in Hr; inversion Hr; subst state_r w_r.
  - assert (Ht : exists rest, trace = generate_response :: rest)
      by (inversion L; subst; eexists; reflexivity).
    destruct Ht as (rest & ->).
    exists (Finished final), rest, w'; split; [exact R|]; split; [exact L|].
    apply (process_request_answer _ _ _ _ _ _ R).
  - assert (Ht : exists rest, trace = generate_response :: rest)
      by (inversion L; subst; eexists; reflexivity).
    destruct Ht as (rest & ->).
    destruct (stopped_budget _ _ _ _ _ L eq_refl Hc) as [Hb _].
    exists (Stopped recursion_error reached), rest, w'; split; [exact R|].
    split; [exact L|]; split; [reflexivity|]; split; [exact Hb|].
    apply (process_request_stopped _ _ _ _ _ _ _ R).
Qed.

End AgentProperties.

(** * Concrete turns *)

Module Scenarios.
Import Demo.

(** The scenarios of the specification. *)
Example scenario_no_tools :
  outcome (process_request [user "Hello"] 3
             (world [says "Hi there"] (Raised "down") (Returned []))) =
  ("success", Some "Hi there", 1%nat).
Proof. vm_compute; reflexivity. Qed.

Example scenario_one_tool_round_trip :
  (let '(run, _, _) :=
     ainvoke (initial_state [user "What is the rpm?"] 3)
             (world [asks "" [call "c1" "get_map" "{key: engine_params}"];
                     says "The rpm is 2500"]
                    (Raised "down") (Returned [])) in
   (status (final_answer (messages (run_state run))),
    response (final_answer (messages (run_state run))),
    iteration_count (run_state run))) =
  ("success", Some "The rpm is 2500", 1).
Proof. vm_compute; reflexivity. Qed.

Example scenario_unknown_tool :
  fst (execute_tool (JStr "does_not_exist") (JStr "c1") (JDict []) gateway_down) =
  Returned (mkToolResponse "c1" JNull (Some "Unknown tool: does_not_exist")) /\
  outcome (process_request [user "Hello"] 3
             (world [asks "" [call "c1" "does_not_exist" "{}"]; says "Sorry"]
                    (Raised "down") (Returned []))) =
  ("success", Some "Sorry", 2%nat).
Proof. split; vm_compute; reflexivity. Qed.

Example scenario_bad_arguments :
  fst (execute_tool (JStr "get_map") (JStr "c2") (JDict [("name", JStr "x")])
                    gateway_down) =
  Returned (mkToolResponse "c2" JNull
              (Some "get_map() got an unexpected keyword argument 'name'")) /\
  fst (execute_tool (JStr "get_map") (JStr "c3") (JList []) gateway_down) =
  Returned (mkToolResponse "c3" JNull
              (Some "get_map() argument after ** must be a mapping")).
Proof. split; vm_compute; reflexivity. Qed.

(** A model that asks for a tool at every generation: with a budget of
    10 the turn runs to the end, after 11 generations; with a budget of
    11 or more the graph library stops it at its limit of steps, after 12
    generations, and the answer has status [error]. *)
Example scenario_step_limit :
  outcome (process_request [user "Hello"] 10
             (world [] (asks "" [call "c1" "get_map" "{key: engine_params}"])
                    (Returned []))) =
  ("success", Some "", 11%nat) /\
  outcome (process_request [user "Hello"] 11
             (world [] (asks "" [call "c1" "get_map" "{key: engine_params}"])
                    (Returned []))) =
  ("error",
   Some "Agent processing failed: Recursion limit of 25 reached without hitting a stop condition.",
   12%nat) /\
  outcome (process_request [user "Hello"] 50
             (world [] (asks "" [call "c1" "get_map" "{key: engine_params}"])
                    (Returned []))) =
  ("error",
   Some "Agent processing failed: Recursion limit of 25 reached without hitting a stop condition.",
   12%nat).
Proof. repeat split; vm_compute; reflexivity. Qed.

(** C1, at a concrete turn: the gateway raises, and the caller gets status
    [success] with the error text as the answer, after one gateway call. *)
Lemma generation_failure_witness :
  outcome (process_request [user "Hello"] 3 gateway_down) =
  ("success", Some "Error generating response: LLM request failed: boom", 1%nat).
Proof.
  unfold outcome.
  erewrite (generation_failure_reports_success [user "Hello"] 3 gateway_down)
    by (vm_compute; reflexivity).
  vm_compute; reflexivity.
Defined.

(** C3: the budget-exhaustion scenario with a model that sends tool calls
    and no text: the final content is empty and the status is [success]. *)
Lemma empty_content_is_success :
  outcome (process_request [user "Hello"] 3
             (world [] (asks "" [call "c1" "get_map" "{key: engine_params}"])
                    (Returned []))) =
  ("success", Some "", 4%nat).
Proof. vm_compute; reflexivity. Qed.

(** C5: a call whose id is not a string ([None] here) is not answered
    with a response: [execute_tool] raises to its caller. *)
Lemma null_call_id_raises :
  execute_tool (JStr "does_not_exist") JNull (JDict []) gateway_down =
  (Raised "1 validation error for ToolResponse: tool_call_id: Input should be a valid string",
   gateway_down).
Proof. vm_compute; reflexivity. Qed.

(** C6, at a concrete turn: the search raises, the gateway receives the
    message as the caller gave it, and the turn succeeds. *)
Lemma retrieval_failure_witness :
  (let x := process_request [user "Hello"] 3
              (world [says "Hi there"] (Raised "down")
                     (Raised "Search failed: connection refused")) in
   (status (fst x), response (fst x), prompts (snd x))) =
  ("success", Some "Hi there", [[mkMessage "user" (Some "Hello") None None]]).
Proof.
  destruct (retrieval_failure_is_absorbed
              [user "Hello"] 3
              (world [says "Hi there"] (Raised "down")
                     (Raised "Search failed: connection refused"))
              (user "Hello") "Search failed: connection refused"
              (mkDemoWorld [says "Hi there"] (Raised "down") []
                           (Raised "Search failed: connection refused") 1 [])
              ltac:(reflexivity) ltac:(vm_compute; reflexivity)) as [_ Hgen].
  erewrite Hgen by (vm_compute; reflexivity).
  vm_compute; reflexivity.
Defined.

(** C7: a tool call that carries no id is answered by a tool message whose
    [tool_call_id] is ["unknown"], an id that no assistant-role message of
    the sequence holds. *)
Lemma unknown_id_matches_no_call :
  map (fun m => (role m, option_map (map tc_id) (msg_tool_calls m), tool_call_id m))
      (rr_messages
         (fst (process_request [user "Hello"] 3
                 (world [asks "" [mkToolCall None
                                    (Some (JDict [("name", JStr "get_map");
                                                  ("arguments",
                                                   JStr "{key: engine_params}")]))];
                         says "done"]
                        (Raised "down") (Returned []))))) =
  [ ("user", None, None);
    ("assistant", Some [None], None);
    ("tool", None, Some "unknown");
    ("assistant", Some [], None) ].
Proof. vm_compute; reflexivity. Qed.

(** C9: when the sequence does not end with a user message, the context
    goes into the last message, and the last user message stays as it
    was. *)
Lemma context_goes_to_last_message :
  map (fun m => (role m, content m))
      (rr_messages
         (fst (process_request
                 [user "What is the rpm?"; mkChatMessage "assistant" "Let me check."] 3
                 (world [says "2500"] (Raised "down") (Returned [hit "rpm: 2500"]))))) =
  [ ("user", Some "What is the rpm?");
    ("assistant", Some ("Context: rpm: 2500" ++ newline ++ newline
                        ++ "Query: Let me check."));
    ("assistant", Some "2500") ].
Proof. vm_compute; reflexivity. Qed.

(** C9, at a concrete turn: two passages are put in front of the
    question of the user. *)
Lemma retrieval_rewrites_witness :
  fst (_retrieve_context
         (initial_state [user "What is the rpm?"] 3)
         (world [] (Raised "down") (Returned [hit "rpm: 2500"; hit "pressure: 2.3"]))) =
  Returned (mkAgentState
              [mkMessage "user"
                         (Some ("Context: rpm: 2500" ++ newline ++ "pressure: 2.3"
                                ++ newline ++ newline ++ "Query: What is the rpm?"))
                         None None]
              [] "context_retrieved" 3 0).
Proof.
  destruct (retrieval_rewrites_last_message
              (initial_state [user "What is the rpm?"] 3)
              (world [] (Raised "down") (Returned [hit "rpm: 2500"; hit "pressure: 2.3"]))
              [] (mkMessage "user" (Some "What is the rpm?") None None)
              [hit "rpm: 2500"; hit "pressure: 2.3"]
              (mkDemoWorld [] (Raised "down") []
                           (Returned [hit "rpm: 2500"; hit "pressure: 2.3"]) 1 [])
              ltac:(reflexivity) ltac:(vm_compute; reflexivity) ltac:(discriminate))
    as (rewritten & E & Hrole & Hcalls & Hid & Hcontent & _).
  rewrite E; destruct rewritten; simpl in *; subst; reflexivity.
Defined.

End Scenarios.

(** * More properties: the tool registry *)

Section RegistryProperties.
Context {World : Type} `{Collaborators World}.

Lemma filter_nil_forallb {A : Type} (f : A -> bool) (xs : list A) :
  filter f xs = [] <-> forallb (fun x => negb (f x)) xs = true.
Proof.
  induction xs as [|x xs IH]; simpl; [tauto|].
  destruct (f x); simpl; [split; discriminate|exact IH].
Qed.

(** What the binding of an argument mapping decides, for a method none
    of whose parameters is called [self]. *)
Lemma bind_kwargs_decides callee required optional fields w :
  existsb (String.eqb "self") (required ++ optional) = false ->
  if forallb (fun kv => existsb (String.eqb (fst kv)) (required ++ optional)) fields
     && forallb (fun r => dict_has r fields) required
  then bind_kwargs callee required optional (JDict fields) w = (Returned fields, w)
  else exists e, bind_kwargs callee required optional (JDict fields) w = (Raised e, w).
Proof.
  intros Hself; unfold bind_kwargs.
  destruct (filter _ fields) as [|[kw v] rest] eqn:Funknown.
  - apply filter_nil_forallb in Funknown.
    assert (Hknown : forallb (fun kv => existsb (String.eqb (fst kv)) (required ++ optional))
                             fields = true).
    { rewrite forallb_forall in *; intros kv Hin.
      specialize (Funknown kv Hin).
      apply negb_true_iff, orb_false_iff in Funknown.
      destruct Funknown as [_ Hk]; apply negb_false_iff in Hk; exact Hk. }
    rewrite Hknown; simpl.
    destruct (filter _ required) as [|r rs] eqn:Fmissing.
    + apply filter_nil_forallb in Fmissing.
      assert (Hreq : forallb (fun r => dict_has r fields) required = true).
      { rewrite forallb_forall in *; intros r Hin.
        specialize (Fmissing r Hin); apply negb_true_iff, negb_false_iff in Fmissing.
        exact Fmissing. }
      rewrite Hreq; reflexivity.
    + assert (Hreq : forallb (fun r => dict_has r fields) required = false).
      { destruct (forallb _ required) eqn:E; [|reflexivity].
        assert (Hin : In r (filter (fun p => negb (dict_has p fields)) required))
          by (rewrite Fmissing; left; reflexivity).
        apply filter_In in Hin; destruct Hin as [Hin Hr].
        rewrite forallb_forall in E; rewrite (E r Hin) in Hr; discriminate. }
      rewrite Hreq; eexists; reflexivity.
  - assert (Hin : In (kw, v) (filter (fun kv => (fst kv =? "self")%string
                                 || negb (existsb (String.eqb (fst kv))
                                                  (required ++ optional))) fields))
      by (rewrite Funknown; left; reflexivity).
    apply filter_In in Hin; destruct Hin as [Hin Hkw]; simpl in Hkw.
    assert (Hknown : forallb (fun kv => existsb (String.eqb (fst kv)) (required ++ optional))
                             fields = false).
    { destruct (forallb _ fields) eqn:E; [|reflexivity].
      rewrite forallb_forall in E; specialize (E _ Hin); simpl in E.
      rewrite E in Hkw; simpl in Hkw; rewrite orb_false_r in Hkw.
      apply String.eqb_eq in Hkw; subst kw.
      rewrite Hself in E; discriminate. }
    rewrite Hknown; simpl.
    destruct (kw =? "self")%string; eexists; reflexivity.
Qed.

(** Reading the five schemas and the five entries of the registry. *)
Ltac schema_cases Hin Hname :=
  simpl in Hin;
  destruct Hin as [<-|[<-|[<-|[<-|[<-|[]]]]]];
  cbv in Hname; inversion Hname; subst; clear Hname;
  rewrite execute_tool_cases;
  cbn [dict_get tools String.eqb Ascii.eqb Bool.eqb];
  unfold bind.

Ltac schema_fit Hfit :=
  unfold fits_schema, schema_properties, schema_required, json_path, json_get,
    schema_property in Hfit;
  cbn [fold_left dict_get String.eqb Ascii.eqb Bool.eqb map fst flat_map app] in Hfit.

(** An argument mapping that does not fit the schema of a tool (a key the
    schema does not declare, or a required parameter left out) is refused
    before the tool runs: the response carries an error and no result, and
    the world is untouched. *)
Theorem misfit_arguments_never_run_the_tool schema name fields call_id w :
  In schema get_tool_schemas ->
  schema_name schema = Some name ->
  fits_schema schema fields = false ->
  exists e,
    execute_tool (JStr name) (JStr call_id) (JDict fields) w =
    (Returned (mkToolResponse call_id JNull (Some e)), w).
Proof.
  intros Hin Hname Hfit.
  schema_cases Hin Hname; schema_fit Hfit;
    match goal with
    | |- context [bind_kwargs ?c ?r ?o (JDict fields) w] =>
        pose proof (bind_kwargs_decides c r o fields w eq_refl) as D
    end;
    cbn [app] in D; rewrite Hfit in D; destruct D as [e ->];
    exists e; reflexivity.
Qed.

(** An argument mapping that fits the schema of a tool is bound and the
    tool runs: the response carries a non-empty result and no error (for
    [get_map], when the key is a string, as its schema declares). *)
Theorem fitting_arguments_give_a_result schema name fields call_id w :
  In schema get_tool_schemas ->
  schema_name schema = Some name ->
  fits_schema schema fields = true ->
  (name = "get_map" -> exists k, dict_get "key" fields = Some (JStr k)) ->
  exists r w',
    execute_tool (JStr name) (JStr call_id) (JDict fields) w =
    (Returned (mkToolResponse call_id r None), w') /\ populated r.
Proof.
  intros Hin Hname Hfit Hkey.
  schema_cases Hin Hname; schema_fit Hfit;
    match goal with
    | |- context [bind_kwargs ?c ?r ?o (JDict fields) w] =>
        pose proof (bind_kwargs_decides c r o fields w eq_refl) as D
    end;
    cbn [app] in D; rewrite Hfit in D; rewrite D.
  - destruct (Hkey eq_refl) as (k & Hk).
    unfold param; rewrite Hk; unfold get_map.
    destruct (dict_get k mock_data); eexists _, _; (split; [reflexivity|]);
      split; (discriminate || reflexivity).
  - eexists _, _; split; [reflexivity|]; split; (discriminate || reflexivity).
  - eexists _, _; split; [reflexivity|]; split; (discriminate || reflexivity).
  - eexists _, _; split; [reflexivity|]; split; (discriminate || reflexivity).
  - destruct (file_operations_populated (param fields "operation" JNull)
                (param fields "path" JNull) (param fields "content" JNull) w)
      as (v & w' & E & P).
    rewrite E; eexists _, _; split; [reflexivity|exact P].
Qed.

(** The schemas and the registry name the same tools, in the same order,
    so a tool the model is told about is always one the registry finds. *)
Theorem schemas_name_the_registered_tools :
  map schema_name get_tool_schemas = map (fun t => Some (fst t)) tools /\
  forall name,
    dict_has name tools = true <->
    exists schema, In schema get_tool_schemas /\ schema_name schema = Some name.
Proof.
  split; [reflexivity|].
  intros name; split.
  - unfold dict_has, tools; cbn [dict_get].
    destruct (String.eqb_spec "get_map" name) as [<-|_];
      [intros _; exists (nth 0 get_tool_schemas JNull); split;
       [simpl; tauto|reflexivity]|].
    destruct (String.eqb_spec "apply_patch" name) as [<-|_];
      [intros _; exists (nth 1 get_tool_schemas JNull); split;
       [simpl; tauto|reflexivity]|].
    destruct (String.eqb_spec "search_logs" name) as [<-|_];
      [intros _; exists (nth 2 get_tool_schemas JNull); split;
       [simpl; tauto|reflexivity]|].
    destruct (String.eqb_spec "run_tests" name) as [<-|_];
      [intros _; exists (nth 3 get_tool_schemas JNull); split;
       [simpl; tauto|reflexivity]|].
    destruct (String.eqb_spec "file_operations" name) as [<-|_];
      [intros _; exists (nth 4 get_tool_schemas JNull); split;
       [simpl; tauto|reflexivity]|].
    discriminate.
  - intros (schema & Hin & Hname).
    simpl in Hin; destruct Hin as [<-|[<-|[<-|[<-|[<-|[]]]]]];
      cbv in Hname; inversion Hname; reflexivity.
Qed.

(** [file_operations] never raises: whatever the operation, the path, the
    content and the file system do, it returns a dict with at least one
    key (an error of the file system is the value of its ["error"] key). *)
Theorem file_operations_never_raises operation path file_content w :
  exists k x rest w',
    file_operations operation path file_content w =
    (Returned (JDict ((k, x) :: rest)), w').
Proof.
  unfold file_operations.
  destruct (try_except _ _ w) as [o w'] eqn:E.
  unfold as_path in E.
  io_cases; eexists _, _, _, _; reflexivity.
Qed.

(** The guards of [file_operations]: a path that is not a string, a write
    with no content and an unknown operation are answered with an error
    entry without any access to the file system; a read, a list or a
    delete of a path that does not exist is answered with an error entry
    after the existence test alone. *)
Theorem file_operations_guards :
  (forall operation path file_content w,
      match path with
      | JStr _ => True
      | _ => file_operations operation path file_content w =
             (Returned (JDict [("error", JStr (fault_text (NotAPath path)))]), w)
      end) /\
  (forall p w,
      file_operations (JStr "write") (JStr p) JNull w =
      (Returned (JDict [("error", JStr "Content required for write operation")]), w)) /\
  (forall operation p file_content w,
      is_text operation "read" || is_text operation "write"
      || is_text operation "list" || is_text operation "delete" = false ->
      file_operations operation (JStr p) file_content w =
      (Returned (JDict [("error", JStr ("Unknown operation: " ++ py_str operation))]), w)) /\
  (forall operation p file_content w w1,
      is_text operation "read" || is_text operation "list"
      || is_text operation "delete" = true ->
      fs_exists p w = (Returned false, w1) ->
      exists text,
        file_operations operation (JStr p) file_content w =
        (Returned (JDict [("error", JStr text)]), w1)).
Proof.
  split; [|split; [|split]].
  - intros operation path file_content w; destruct path; try exact I; reflexivity.
  - intros p w; reflexivity.
  - intros operation p file_content w Hop.
    repeat (apply orb_false_iff in Hop; destruct Hop as [Hop ?]).
    unfold file_operations, try_except, bind, as_path, ret.
    rewrite Hop; repeat match goal with E : is_text _ _ = false |- _ => rewrite E; clear E end.
    reflexivity.
  - intros operation p file_content w w1 Hop Hex.
    unfold file_operations, try_except, bind, as_path, ret.
    destruct (is_text operation "read") eqn:Hread.
    + rewrite Hex; eexists; reflexivity.
    + destruct (is_text operation "write") eqn:Hwrite.
      * destruct operation; try discriminate.
        simpl in Hread, Hwrite, Hop.
        apply String.eqb_eq in Hwrite; subst s; discriminate.
      * destruct (is_text operation "list") eqn:Hlist.
        -- rewrite Hex; eexists; reflexivity.
        -- simpl in Hop; rewrite Hop, Hex; eexists; reflexivity.
Qed.

(** A lookup with [get_map] through the registry never fails on a string
    key: a key of the table gives its data, any other key gives a result
    (not an error of the response) that says ["Key not found"]; the world
    is untouched. *)
Theorem get_map_lookup key call_id w :
  execute_tool (JStr "get_map") (JStr call_id) (JDict [("key", JStr key)]) w =
  (Returned
     (mkToolResponse call_id
        (match dict_get key mock_data with
         | Some data => JDict [("key", JStr key); ("data", data)]
         | None => JDict [("key", JStr key); ("data", JNull);
                          ("error", JStr "Key not found")]
         end) None), w) /\
  (dict_get key mock_data = None <-> key <> "boost_target" /\ key <> "engine_params").
Proof.
  split.
  - rewrite execute_tool_cases.
    cbn [dict_get tools String.eqb Ascii.eqb Bool.eqb].
    unfold bind, bind_kwargs, ret, get_map, param.
    cbn [filter fst existsb app String.eqb Ascii.eqb Bool.eqb orb negb dict_has dict_get].
    destruct (dict_get key mock_data); reflexivity.
  - unfold mock_data; cbn [dict_get].
    destruct (String.eqb_spec "boost_target" key) as [<-|N1].
    + split; [discriminate|]; intros [N _]; contradiction.
    + destruct (String.eqb_spec "engine_params" key) as [<-|N2].
      * split; [discriminate|]; intros [_ N]; contradiction.
      * split; [intros _; split; congruence|reflexivity].
Qed.

End RegistryProperties.

(** * More properties: the turn *)

Section TurnProperties.
Context {World : Type} `{Collaborators World}.

(** Whatever the search does, [_retrieve_context] returns, and changes
    nothing of the state but the step and, at most, the content of the
    last message. *)
Theorem retrieval_changes_only_last_content state w :
  exists state' w',
    _retrieve_context state w = (Returned state', w') /\
    current_step state' = "context_retrieved" /\
    tool_calls state' = tool_calls state /\
    max_iterations state' = max_iterations state /\
    iteration_count state' = iteration_count state /\
    (messages state' = messages state \/
     exists before m text,
       messages state = (before ++ [m])%list /\
       messages state' =
       (before ++ [mkMessage (role m) (Some text) (msg_tool_calls m) (tool_call_id m)])%list).
Proof.
  rewrite retrieve_context_cases.
  destruct (last_item (messages state)) as [m|] eqn:Hlast.
  - destruct (vector_search (content m) 3 w) as [[[|h hits]|e] w'];
      eexists _, _; (split; [reflexivity|]); repeat split; try (left; reflexivity).
    right; exists (but_last (messages state)), m; eexists; split; [|reflexivity].
    apply last_item_some; exact Hlast.
  - eexists _, _; split; [reflexivity|]; repeat split; left; reflexivity.
Qed.

Lemma after_retrieval_unfold chat maxit w :
  after_retrieval chat maxit w =
  _retrieve_context (mkAgentState (messages (initial_state chat maxit)) []
                                  "analyzed" maxit 0) w.
Proof.
  unfold after_retrieval, bind; rewrite analyze_input_returns; reflexivity.
Qed.

Lemma generation_loop_appends state w final trace w' :
  generation_loop state w final trace w' ->
  exists appended,
    messages final = (messages state ++ appended)%list /\
    Forall (fun m => role m = "assistant" \/ role m = "tool") appended /\
    length (filter is_assistant appended) = S (tool_cycles trace) /\
    generations trace = S (tool_cycles trace).
Proof.
  induction 1 as [state w state1 w1 E F
                 |state w state1 w1 state2 w2 final trace w3 E T E2 L IH];
    destruct (generate_response_returns state w)
      as (s & w' & a & E' & Hm & Ha & _);
    rewrite E in E'; inversion E'; subst s w'.
  - exists [a]; simpl; rewrite Hm; split; [reflexivity|].
    split; [constructor; [left; exact Ha|constructor]|].
    apply is_assistant_iff in Ha; rewrite Ha; split; reflexivity.
  - destruct (execute_tools_returns state1 w1) as (out & w'' & E2' & B).
    rewrite E2 in E2'; inversion E2'; subst state2 w''.
    destruct IH as (rest & Hfinal & Hroles & Hcount & Hgen).
    simpl in Hfinal.
    pose proof (batch_answers_calls _ _ _ _ B) as Hout.
    exists (a :: out ++ rest)%list; split; [|split; [|split]].
    + rewrite Hfinal, Hm, <- !app_assoc; reflexivity.
    + constructor; [left; exact Ha|].
      apply Forall_app; split; [|exact Hroles].
      eapply Forall_impl; [|exact Hout]; intros m [Hr _]; right; exact Hr.
    + simpl; apply is_assistant_iff in Ha; rewrite Ha; simpl.
      rewrite filter_app, length_app, Hcount.
      rewrite (filter_no_assistant out); [reflexivity|].
      eapply Forall_impl; [|exact Hout]; intros m [Hr _]; rewrite Hr; discriminate.
    + unfold generations, tool_cycles in *; simpl; rewrite Hgen; reflexivity.
Qed.

Lemma generation_rounds_appends state w reached trace w' :
  generation_rounds state w reached trace w' ->
  exists appended,
    messages reached = (messages state ++ appended)%list /\
    Forall (fun m => role m = "assistant" \/ role m = "tool") appended /\
    length (filter is_assistant appended) = S (tool_cycles trace) /\
    generations trace = S (tool_cycles trace).
Proof.
  induction 1 as [state w state1 w1 E
                 |state w state1 w1 state2 w2 reached trace w3 E T E2 L IH];
    destruct (generate_response_returns state w)
      as (s & w' & a & E' & Hm & Ha & _);
    rewrite E in E'; inversion E'; subst s w'.
  - exists [a]; rewrite Hm; split; [reflexivity|].
    split; [constructor; [left; exact Ha|constructor]|].
    simpl; apply is_assistant_iff in Ha; rewrite Ha; split; reflexivity.
  - destruct (execute_tools_returns state1 w1) as (out & w'' & E2' & B).
    rewrite E2 in E2'; inversion E2'; subst state2 w''.
    destruct IH as (rest & Hfinal & Hroles & Hcount & Hgen).
    simpl in Hfinal.
    pose proof (batch_answers_calls _ _ _ _ B) as Hout.
    exists (a :: out ++ rest)%list; split; [|split; [|split]].
    + rewrite Hfinal, Hm, <- !app_assoc; reflexivity.
    + constructor; [left; exact Ha|].
      apply Forall_app; split; [|exact Hroles].
      eapply Forall_impl; [|exact Hout]; intros m [Hr _]; right; exact Hr.
    + simpl; apply is_assistant_iff in Ha; rewrite Ha; simpl.
      rewrite filter_app, length_app, Hcount.
      rewrite (filter_no_assistant out); [reflexivity|].
      eapply Forall_impl; [|exact Hout]; intros m [Hr _]; rewrite Hr; discriminate.
    + unfold generations, tool_cycles in *; simpl; rewrite Hgen; reflexivity.
Qed.

(** What a turn appends, however it ends. *)
Lemma turn_appends chat maxit w :
  exists state_r w_r run trace w' appended,
    after_retrieval chat maxit w = (Returned state_r, w_r) /\
    ainvoke (initial_state chat maxit) w = (run, analyze :: retrieve :: trace, w') /\
    messages (run_state run) = (messages state_r ++ appended)%list /\
    Forall (fun m => role m = "assistant" \/ role m = "tool") appended /\
    length (filter is_assistant appended) = S (tool_cycles trace) /\
    generations trace = S (tool_cycles trace) /\
    Z.of_nat (tool_cycles trace) <= Z.max 0 maxit /\
    (tool_cycles trace <= 11)%nat.
Proof.
  destruct (turn_runs chat maxit w)
    as (state_r & w_r & Hr & _ & _ & Hmax & Hcount
        & [(final & trace & w' & L & Hc & R) | (reached & trace & w' & L & Hc & R)]).
  - destruct (generation_loop_appends _ _ _ _ _ L) as (appended & Hm & Hroles & Ha & Hg).
    apply generation_loop_counts in L; destruct L as (_ & Hf & Hle).
    exists state_r, w_r, (Finished final), trace, w', appended.
    rewrite Hmax, Hcount in *.
    repeat split; try assumption; lia.
  - destruct (generation_rounds_appends _ _ _ _ _ L) as (appended & Hm & Hroles & Ha & Hg).
    destruct (stopped_budget _ _ _ _ _ L Hcount Hc) as [Hb _].
    exists state_r, w_r, (Stopped recursion_error reached), trace, w', appended.
    rewrite Hmax in *.
    repeat split; try assumption; lia.
Qed.

(** A turn only appends: the messages it ends with, which are the ones
    its answer returns (whether the run got to the end or was stopped at
    the limit of steps), are the messages as retrieval left them,
    followed by assistant-role and tool-role messages; and retrieval left
    the caller's messages as they were, in number, order and role, all
    but the last one untouched. *)
Theorem turn_only_appends chat maxit w :
  exists state_r w_r run trace w' appended,
    after_retrieval chat maxit w = (Returned state_r, w_r) /\
    ainvoke (initial_state chat maxit) w = (run, trace, w') /\
    map role (messages state_r) = map cm_role chat /\
    removelast (messages state_r) = removelast (messages (initial_state chat maxit)) /\
    messages (run_state run) = (messages state_r ++ appended)%list /\
    Forall (fun m => role m = "assistant" \/ role m = "tool") appended /\
    rr_messages (fst (process_request chat maxit w)) = messages (run_state run).
Proof.
  destruct (turn_appends chat maxit w)
    as (state_r & w_r & run & trace & w' & appended & Hr & R & Hfinal & Hroles & _).
  exists state_r, w_r, run, (analyze :: retrieve :: trace), w', appended.
  split; [exact Hr|]; split; [exact R|].
  pose proof (process_request_messages _ _ _ _ _ _ R) as Hrr.
  rewrite after_retrieval_unfold in Hr.
  destruct (retrieval_changes_only_last_content
              (mkAgentState (messages (initial_state chat maxit)) [] "analyzed" maxit 0) w)
    as (s & w0 & E & _ & _ & _ & _ & Hmsgs).
  rewrite Hr in E; inversion E; subst s w0.
  assert (Hinit : map role (messages (initial_state chat maxit)) = map cm_role chat)
    by (simpl; rewrite map_map; reflexivity).
  cbn [messages] in Hmsgs.
  destruct Hmsgs as [Hsame | (before & m & text & Hbefore & Hafter)].
  - split; [rewrite Hsame; exact Hinit|].
    split; [rewrite Hsame; reflexivity|].
    repeat split; assumption.
  - split; [|split; [|repeat split; assumption]].
    + rewrite Hafter, <- Hinit, Hbefore, !map_app; reflexivity.
    + rewrite Hafter, Hbefore, !removelast_last; reflexivity.
Qed.

(** A turn calls the gateway once more than it runs tool cycles, however
    it ends: it runs one generation node, and appends one assistant-role
    message, per cycle and one more; so at most [max_iterations + 1]
    calls (one call when the budget is zero or less), and never more than
    12, the generations that fit in the limit of steps of the graph
    library. *)
Theorem gateway_calls_are_cycles_plus_one chat maxit w :
  exists state_r w_r run trace w' appended,
    after_retrieval chat maxit w = (Returned state_r, w_r) /\
    ainvoke (initial_state chat maxit) w = (run, trace, w') /\
    messages (run_state run) = (messages state_r ++ appended)%list /\
    generations trace = S (tool_cycles trace) /\
    length (filter is_assistant appended) = S (tool_cycles trace) /\
    Z.of_nat (generations trace) <= Z.max 0 maxit + 1 /\
    (generations trace <= 12)%nat.
Proof.
  destruct (turn_appends chat maxit w)
    as (state_r & w_r & run & trace & w' & appended
        & Hr & R & Hfinal & _ & Hassist & Hgen & Hle & Hcap).
  exists state_r, w_r, run, (analyze :: retrieve :: trace), w', appended.
  split; [exact Hr|]; split; [exact R|]; split; [exact Hfinal|].
  unfold generations, tool_cycles in *; simpl.
  split; [exact Hgen|]; split; [exact Hassist|].
  rewrite Hgen; split; lia.
Qed.

Lemma generation_loop_pending state w final trace w' :
  generation_loop state w final trace w' ->
  tool_calls state = [] ->
  (tool_calls final <> [] -> max_iterations state <= iteration_count final) /\
  rr_tool_calls (final_answer (messages final)) = Some (tool_calls final).
Proof.
  induction 1 as [state w state1 w1 E F
                 |state w state1 w1 state2 w2 final trace w3 E T E2 L IH];
    intros Hcalls.
  - assert (Hbudget : tool_calls state1 <> [] ->
                      max_iterations state1 <= iteration_count state1).
    { intros Hne.
      destruct (Z.ltb_spec (iteration_count state1) (max_iterations state1)) as [Hlt|Hge];
        [|exact Hge].
      assert (T : _should_use_tools state1 = "tools")
        by (apply should_use_tools_iff; split; assumption).
      rewrite F in T; discriminate. }
    rewrite generate_response_cases in E.
    destruct (chat_completion (messages state) w) as [[[[|message rest]]|e] w0];
      inversion E; subst state1 w1; clear E;
      cbn [messages tool_calls set_current_step set_messages] in *;
      try (rewrite final_answer_snoc by reflexivity; rewrite Hcalls in *; simpl;
           split; [intros N; contradiction|reflexivity]).
    destruct (nonempty (get_tool_calls message)) eqn:Hne;
      cbn [messages tool_calls set_messages set_tool_calls max_iterations
             iteration_count] in *;
      rewrite final_answer_snoc by reflexivity; simpl.
    + split; [exact Hbudget|reflexivity].
    + rewrite Hcalls; split; [intros N; contradiction|].
      destruct (get_tool_calls message); [reflexivity|discriminate].
  - destruct (generate_response_returns state w)
      as (s & w' & a & E' & _ & _ & Hmax & _);
      rewrite E in E'; inversion E'; subst s w'.
    destruct (execute_tools_returns state1 w1) as (out & w'' & E2' & _).
    rewrite E2 in E2'; inversion E2'; subst state2 w''.
    destruct (IH eq_refl) as [Hb Hrr]; simpl in Hb.
    split; [intros N; rewrite <- Hmax; apply Hb; exact N|exact Hrr].
Qed.

(** A turn that runs to the end leaves tool calls pending only when the
    budget is used up by the tool cycles it ran
    ([max_iterations <= iteration_count]); the pending calls are the ones
    of its last generation, they are not executed (the run goes from that
    generation to the finalize node), and they are what the answer
    returns as its tool calls.  A turn that the graph library stops at
    its limit of steps (with a budget of 11 or more only) is answered
    with status [error] and no tool calls. *)
Theorem pending_calls_mean_budget_exhausted chat maxit w :
  exists run trace w',
    ainvoke (initial_state chat maxit) w = (run, trace, w') /\
    match run with
    | Finished final =>
        process_request chat maxit w = (final_answer (messages final), w') /\
        iteration_count final = Z.of_nat (tool_cycles trace) /\
        (exists nodes, trace = (nodes ++ [generate_response; finalize])%list) /\
        (tool_calls final <> [] ->
         maxit <= iteration_count final /\
         rr_tool_calls (final_answer (messages final)) = Some (tool_calls final))
    | Stopped text reached =>
        text = recursion_error /\
        11 <= maxit /\
        process_request chat maxit w =
        (mkRequestResult (Some ("Agent processing failed: " ++ text)) None
                         (messages reached) "error", w')
    end.
Proof.
  destruct (turn_runs chat maxit w)
    as (state_r & w_r & _ & _ & Hcalls & Hmax & Hcount
        & [(final & trace & w' & L & _ & R) | (reached & trace & w' & L & Hc & R)]).
  - exists (Finished final), (analyze :: retrieve :: trace), w'; split; [exact R|].
    split; [apply (process_request_answer _ _ _ _ _ _ R)|].
    destruct (generation_loop_length _ _ _ _ _ L) as (_ & nodes & Hn).
    destruct (generation_loop_pending _ _ _ _ _ L Hcalls) as [Hb Hrr].
    apply generation_loop_counts in L; destruct L as (_ & Hf & _).
    rewrite Hmax, Hcount in *.
    split; [unfold tool_cycles in *; simpl; lia|].
    split; [exists (analyze :: retrieve :: nodes); rewrite Hn; reflexivity|].
    intros Hne; split; [apply Hb; exact Hne|exact Hrr].
  - destruct (stopped_budget _ _ _ _ _ L Hcount Hc) as [Hb _].
    exists (Stopped recursion_error reached), (analyze :: retrieve :: trace), w';
      split; [exact R|].
    split; [reflexivity|]; split; [rewrite <- Hmax; exact Hb|].
    apply (process_request_stopped _ _ _ _ _ _ _ R).
Qed.

(** With a budget of zero or less no tool is ever executed: the turn is
    analyze, retrieve, one generation, finalize, and its answer is the
    one message of that generation. *)
Theorem zero_budget_runs_no_tool chat maxit w :
  maxit <= 0 ->
  exists state_r w_r final w' a,
    after_retrieval chat maxit w = (Returned state_r, w_r) /\
    ainvoke (initial_state chat maxit) w =
    (Finished final, [analyze; retrieve; generate_response; finalize], w') /\
    messages final = (messages state_r ++ [a])%list /\
    role a = "assistant" /\
    iteration_count final = 0.
Proof.
  intros Hbudget.
  destruct (turn_completes chat maxit w ltac:(lia))
    as (state_r & w_r & final & trace & w' & Hr & _ & _ & Hmax & Hcount & L & R).
  destruct L as [state w0 state1 w1 E F
                |state w0 state1 w1 state2 w2 final trace w3 E T E2 L];
    destruct (generate_response_returns state w0)
      as (s & w'' & a & E' & Hm & Ha & Hmax' & Hcount' & _);
    rewrite E in E'; inversion E'; subst s w''.
  - exists state, w0, (set_current_step state1 "completed"), w1, a.
    repeat split; auto.
    simpl; rewrite Hcount'; exact Hcount.
  - apply should_use_tools_iff in T; destruct T as [_ T]; lia.
Qed.

(** A failure of the gateway after a tool cycle ends the turn there: the
    error message is appended after the tool messages, no further cycle
    runs, and the answer is the error text.  The run must have two steps
    left for the generation and the finalize node, as it has after each
    of the first 10 tool cycles of a turn. *)
Theorem gateway_failure_after_tools_ends_the_turn state w state2 w2 e w3 steps trace :
  _execute_tools state w = (Returned state2, w2) ->
  chat_completion (messages state2) w2 = (Raised e, w3) ->
  run_graph (S (S steps)) generate_response state2 trace w2 =
  (Finished (mkAgentState (messages state2 ++ [generation_error e]) []
                          "completed" (max_iterations state)
                          (iteration_count state + 1)),
   (trace ++ [generate_response; finalize])%list, w3) /\
  response (final_answer (messages state2 ++ [generation_error e])) =
  Some ("Error generating response: " ++ e).
Proof.
  intros E2 Hg.
  destruct (execute_tools_returns state w) as (out & w' & E2' & _).
  rewrite E2 in E2'; inversion E2'; subst state2 w'; clear E2'.
  split; [|rewrite final_answer_snoc by reflexivity; reflexivity].
  assert (G : _generate_response
                (mkAgentState (messages state ++ out) [] "tools_executed"
                              (max_iterations state) (iteration_count state + 1)) w2 =
              (Returned (mkAgentState
                           ((messages state ++ out) ++ [generation_error e]) [] "error"
                           (max_iterations state) (iteration_count state + 1)), w3))
    by (rewrite generate_response_cases; cbn [messages] in *; rewrite Hg; reflexivity).
  rewrite (run_graph_step _ generate_response _ _ _ _ _ ltac:(discriminate) G).
  rewrite next_after_generation.
  unfold _should_use_tools; cbn [tool_calls nonempty andb String.eqb Ascii.eqb Bool.eqb].
  rewrite (run_graph_step steps finalize
             (mkAgentState ((messages state ++ out) ++ [generation_error e]) []
                           "error" (max_iterations state) (iteration_count state + 1))
             (trace ++ [generate_response]) w3
             (mkAgentState ((messages state ++ out) ++ [generation_error e]) []
                           "completed" (max_iterations state) (iteration_count state + 1))
             w3 ltac:(discriminate) ltac:(reflexivity)).
  cbn [next_node]; rewrite run_graph_END.
  replace ((trace ++ [generate_response]) ++ [finalize])%list
    with (trace ++ [generate_response; finalize])%list
    by (rewrite <- app_assoc; reflexivity).
  reflexivity.
Qed.

End TurnProperties.

(** * More properties: the clients of the services *)

Section ServiceProperties.
Context {World : Type} `{Collaborators World} `{Services World}.

Lemma embed_text_raises text w e w' :
  VectorStore.embed_text text w = (Raised e, w') ->
  exists cause, e = "Embedding failed: " ++ cause.
Proof.
  unfold VectorStore.embed_text, try_except, raise.
  match goal with
  | |- context [match ?body with _ => _ end] => destruct body as [[emb|cause] w1]
  end; intros E; inversion E; eexists; reflexivity.
Qed.

Lemma embed_text_request_fails text w c w1 :
  http_post_json (embed_url ++ "/embed") (JDict [("inputs", JList [text])]) w =
  (HttpFailed c, w1) ->
  VectorStore.embed_text text w = (Raised ("Embedding failed: " ++ c), w1).
Proof.
  intros E; unfold VectorStore.embed_text, try_except, raise; rewrite E; reflexivity.
Qed.

(** What the list comprehension of [search] gives: an entry per point, in
    order, when every payload has a text; the fault of the first payload
    that has none otherwise. *)
Lemma hits_of_points_cases points w :
  (Forall (fun p => exists t, json_get "text" (sp_payload p) = Some t) points ->
   exists hits,
     VectorStore.hits_of_points points w = (Returned hits, w) /\
     Forall2 (fun p h => exists t, json_get "text" (sp_payload p) = Some t /\
                                   h = hit_entry p t) points hits) /\
  (Exists (fun p => json_get "text" (sp_payload p) = None) points ->
   exists e, VectorStore.hits_of_points points w = (Raised e, w)).
Proof.
  induction points as [|p rest [IHok IHbad]]; split.
  - intros _; exists []; split; [reflexivity|constructor].
  - intros E; inversion E.
  - intros Hall; inversion Hall as [|? ? (t & Ht) Hrest]; subst.
    destruct (IHok Hrest) as (hits & E & F).
    exists (hit_entry p t :: hits); split.
    + cbn [VectorStore.hits_of_points]; unfold bind, VectorStore.hit_of_point, subscript.
      unfold json_get in Ht; destruct (sp_payload p) eqn:P; try discriminate.
      rewrite Ht; unfold bind, ret; rewrite E.
      unfold hit_entry, json_get; rewrite P; reflexivity.
    + constructor; [exists t; split; [exact Ht|reflexivity]|exact F].
  - intros Hex.
    cbn [VectorStore.hits_of_points]; unfold bind, VectorStore.hit_of_point, subscript.
    destruct (json_get "text" (sp_payload p)) as [t|] eqn:Ht.
    + inversion Hex as [? ? Hp|? ? Hrest]; subst; [rewrite Ht in Hp; discriminate|].
      destruct (IHbad Hrest) as (e & E).
      unfold json_get in Ht; destruct (sp_payload p); try discriminate.
      rewrite Ht; unfold bind, ret; rewrite E; eexists; reflexivity.
    + unfold json_get in Ht; destruct (sp_payload p);
        try (unfold fault, raise; eexists; reflexivity).
      rewrite Ht; unfold fault, raise; eexists; reflexivity.
Qed.

(** [VectorStore.search], once the query is embedded and the index has
    answered: it returns one entry per point, in the order of the index,
    each with the id, the score and the text of its point and its
    metadata (an empty dict when the payload has none); one point whose
    payload has no text makes the whole search fail. *)
Theorem search_returns_one_entry_per_point query limit score_threshold w emb w1 points w2 :
  VectorStore.embed_text query w = (Returned emb, w1) ->
  qdrant_search VectorStore.collection_name emb limit score_threshold w1 =
  (Returned points, w2) ->
  (Forall (fun p => exists t, json_get "text" (sp_payload p) = Some t) points ->
   exists hits,
     VectorStore.search query limit score_threshold w = (Returned hits, w2) /\
     Forall2 (fun p h => exists t, json_get "text" (sp_payload p) = Some t /\
                                   h = hit_entry p t) points hits) /\
  (Exists (fun p => json_get "text" (sp_payload p) = None) points ->
   exists cause,
     VectorStore.search query limit score_threshold w =
     (Raised ("Search failed: " ++ cause), w2)).
Proof.
  intros Hemb Hsearch.
  destruct (hits_of_points_cases points w2) as [Hok Hbad].
  unfold VectorStore.search, try_except, bind; rewrite Hemb, Hsearch; split.
  - intros Hall; destruct (Hok Hall) as (hits & E & F).
    exists hits; rewrite E; split; [reflexivity|exact F].
  - intros Hex; destruct (Hbad Hex) as (e & E).
    exists e; rewrite E; reflexivity.
Qed.

(** The failures of [VectorStore.search]: whatever it raises starts with
    ["Search failed: "]; and when the request to the embeddings service
    fails, the text of that failure comes back inside both wrappers and
    the index is not searched. *)
Theorem search_failures_are_wrapped :
  (forall query limit score_threshold w e w',
      VectorStore.search query limit score_threshold w = (Raised e, w') ->
      exists cause, e = "Search failed: " ++ cause) /\
  (forall query limit score_threshold w c w1,
      http_post_json (embed_url ++ "/embed") (JDict [("inputs", JList [query])]) w =
      (HttpFailed c, w1) ->
      VectorStore.search query limit score_threshold w =
      (Raised ("Search failed: Embedding failed: " ++ c), w1)).
Proof.
  split.
  - intros query limit score_threshold w e w'.
    unfold VectorStore.search, try_except, raise.
    match goal with
    | |- context [match ?body with _ => _ end] => destruct body as [[hits|cause] w1]
    end; intros E; inversion E; eexists; reflexivity.
  - intros query limit score_threshold w c w1 E.
    unfold VectorStore.search, try_except, bind, raise.
    rewrite (embed_text_request_fails _ _ _ _ E); reflexivity.
Qed.

(** [VectorStore.add_document] upserts nothing when the text cannot be
    embedded: the failure of the embeddings request comes back inside
    both wrappers, in the world the request left; and when the text is
    embedded, the point it upserts carries the text and the metadata, an
    empty dict for metadata that is absent or empty. *)
Theorem add_document_needs_the_embedding :
  (forall document_id text metadata w c w1,
      http_post_json (embed_url ++ "/embed") (JDict [("inputs", JList [text])]) w =
      (HttpFailed c, w1) ->
      VectorStore.add_document document_id text metadata w =
      (Raised ("Failed to add document: Embedding failed: " ++ c), w1)) /\
  (forall document_id text metadata w emb w1,
      VectorStore.embed_text text w = (Returned emb, w1) ->
      VectorStore.add_document document_id text metadata w =
      match qdrant_upsert VectorStore.collection_name document_id emb
                          (JDict [("text", text);
                                  ("metadata",
                                   if py_truthy metadata then metadata else JDict [])])
                          w1 with
      | (Returned u, w2) => (Returned u, w2)
      | (Raised e, w2) => (Raised ("Failed to add document: " ++ e), w2)
      end).
Proof.
  split.
  - intros document_id text metadata w c w1 E.
    unfold VectorStore.add_document, try_except, bind, raise.
    rewrite (embed_text_request_fails _ _ _ _ E); reflexivity.
  - intros document_id text metadata w emb w1 E.
    unfold VectorStore.add_document, try_except, bind, raise, VectorStore.or_empty.
    rewrite E.
    destruct (qdrant_upsert _ _ _ _ w1) as [[u|e] w2]; reflexivity.
Qed.

Lemma health_check_flags w :
  exists llm store w1 w2,
    LLMClient.health_check w = (Returned llm, w1) /\
    VectorStore.health_check w1 = (Returned store, w2) /\
    health_check w = (Returned [("llm", llm); ("vector_store", store)], w2) /\
    (llm = true <->
     exists e body, http_get (openai_compat_url ++ "/models") w = (Answered 200 e body, w1)) /\
    (store = true <-> exists c, qdrant_get_collections w1 = (Returned c, w2)).
Proof.
  unfold health_check, LLMClient.health_check, VectorStore.health_check,
    try_except, bind, ret.
  destruct (http_get (openai_compat_url ++ "/models") w) as [[status e body|t|t] w1] eqn:G.
  - destruct (qdrant_get_collections w1) as [[c|t] w2] eqn:Q.
    + exists (status =? 200), true, w1, w2; rewrite ?Q; repeat split; try reflexivity.
      * intros Hs; apply Z.eqb_eq in Hs; subst; eexists _, _; reflexivity.
      * intros (e' & body' & E); inversion E; reflexivity.
      * intros _; eexists; reflexivity.
    + exists (status =? 200), false, w1, w2; rewrite ?Q; repeat split; try reflexivity;
        try discriminate.
      * intros Hs; apply Z.eqb_eq in Hs; subst; eexists _, _; reflexivity.
      * intros (e' & body' & E); inversion E; reflexivity.
      * intros (c & E); discriminate.
  - destruct (qdrant_get_collections w1) as [[c|t'] w2] eqn:Q.
    + exists false, true, w1, w2; rewrite ?Q; repeat split; try reflexivity; try discriminate.
      * intros (e' & body' & E); discriminate.
      * intros _; eexists; reflexivity.
    + exists false, false, w1, w2; rewrite ?Q; repeat split; try reflexivity; try discriminate.
      * intros (e' & body' & E); discriminate.
      * intros (c & E); discriminate.
  - destruct (qdrant_get_collections w1) as [[c|t'] w2] eqn:Q.
    + exists false, true, w1, w2; rewrite ?Q; repeat split; try reflexivity; try discriminate.
      * intros (e' & body' & E); discriminate.
      * intros _; eexists; reflexivity.
    + exists false, false, w1, w2; rewrite ?Q; repeat split; try reflexivity; try discriminate.
      * intros (e' & body' & E); discriminate.
      * intros (c & E); discriminate.
Qed.

End ServiceProperties.

(** * More properties: the endpoints and the agent over its clients *)

Section EndpointProperties.
Context {World : Type} `{Collaborators World} `{Services World}.

(** With a budget of 10 or less (the endpoints use the default, 3) every
    request is answered with status [success] and the content of the last
    message, which is an assistant-role message. *)
Lemma process_request_total chat maxit w :
  maxit <= 10 ->
  exists result w' before a,
    process_request chat maxit w = (result, w') /\
    status result = "success" /\
    rr_messages result = (before ++ [a])%list /\
    role a = "assistant" /\
    response result = content a.
Proof.
  intros Hbudget.
  destruct (turn_completes chat maxit w Hbudget)
    as (state_r & w_r & final & trace & w' & _ & _ & _ & _ & _ & L & R).
  destruct (generation_loop_ends_with_assistant _ _ _ _ _ L) as (before & a & Hm & Ha).
  exists (final_answer (messages final)), w', before, a.
  split; [apply (process_request_answer _ _ _ _ _ _ R)|].
  rewrite Hm, (final_answer_snoc _ _ Ha); repeat split; assumption.
Qed.

Lemma chat_messages_copy (l : list ChatMessage) :
  map (fun msg => mkChatMessage (cm_role msg) (cm_content msg)) l = l.
Proof.
  induction l as [|[r c] l IH]; simpl; [reflexivity|rewrite IH; reflexivity].
Qed.

(** The chat endpoint: 503 while the agent is not set; after that, a
    message that is missing, empty or not a string is answered 500 (the
    400 raised for a missing message is caught by the handler of the
    endpoint itself) without running a turn; any other message runs a
    turn on it as the only user message and is answered with its final
    text and the status [success]. *)
Theorem simple_chat_statuses request w :
  simple_chat false request w = (HTTPException 503 "Agent not initialized", w) /\
  match dict_get "message" request with
  | Some (JStr text) =>
      if (text =? "")%string
      then simple_chat true request w =
           (HTTPException
              500 ("Chat failed: " ++ http_exception_text 400 "Message is required"),
            w)
      else exists result w1,
          process_request [mkChatMessage "user" text] 3 w = (result, w1) /\
          simple_chat true request w =
          (Ok (JDict [ ("response", json_of_text (response result));
                       ("status", JStr "success");
                       ("timestamp", fst (time_time w1)) ]),
           snd (time_time w1))
  | Some _ =>
      exists detail, simple_chat true request w = (HTTPException 500 detail, w)
  | None =>
      simple_chat true request w =
      (HTTPException
         500 ("Chat failed: " ++ http_exception_text 400 "Message is required"), w)
  end.
Proof.
  split; [reflexivity|].
  unfold simple_chat; cbn [negb].
  destruct (dict_get "message" request) as [message|]; [|reflexivity].
  destruct message as [| b | z | m e | text | items | fields]; cbn [py_truthy negb];
    try (eexists; reflexivity);
    try (destruct b; eexists; reflexivity);
    try (destruct (_ =? 0); eexists; reflexivity);
    try (destruct items; eexists; reflexivity);
    try (destruct fields; eexists; reflexivity).
  destruct (text =? "")%string; [reflexivity|]; cbn [negb].
  destruct (process_request_total [mkChatMessage "user" text] 3 w ltac:(lia))
    as (result & w1 & before & a & E & Hs & _).
  exists result, w1; split; [exact E|].
  rewrite E, Hs; destruct (time_time w1); reflexivity.
Qed.

(** The completions endpoint: 503 while the agent is not set; after that
    every request is answered 200: a turn runs on the messages of the
    request (its model, temperature, token limit and stream flag play no
    part in it), and the body holds one choice, the content of the last
    message of the turn, an assistant-role message, with finish reason
    [stop]; the model named is the one of the request, or the default. *)
Theorem chat_completions_answers request w :
  chat_completions false request w = (HTTPException 503 "Agent not initialized", w) /\
  exists result w1 body w3 before a,
    process_request (req_messages request) 3 w = (result, w1) /\
    chat_completions true request w = (Ok body, w3) /\
    rr_messages result = (before ++ [a])%list /\
    role a = "assistant" /\
    json_get "choices" body =
    Some (JList [ JDict [ ("index", JInt 0);
                          ("message", JDict [ ("role", JStr "assistant");
                                              ("content", json_of_text (content a)) ]);
                          ("finish_reason", JStr "stop") ] ]) /\
    json_get "model" body = Some (JStr (or_default (req_model request) default_model)) /\
    json_get "object" body = Some (JStr "chat.completion").
Proof.
  split; [reflexivity|].
  destruct (process_request_total (req_messages request) 3 w ltac:(lia))
    as (result & w1 & before & a & E & _ & Hm & Ha & Hr).
  unfold chat_completions; cbn [negb]; rewrite chat_messages_copy, E.
  destruct (time_time w1) as [t1 w2]; destruct (time_time w2) as [t2 w3].
  eexists result, w1, _, w3, before, a.
  split; [reflexivity|]; split; [reflexivity|].
  split; [exact Hm|]; split; [exact Ha|].
  rewrite Hr; repeat split.
Qed.

(** The endpoint that executes a tool: 503 while the agent is not set;
    500 for a tool name that is missing or empty, without reaching the
    registry.  Otherwise, with a call id that is a string (or none:
    ["direct_call"] stands for it), 200, whatever the tool and its
    arguments, with that call id and exactly one of [result] and [error]:
    an unknown tool or a fault of the tool is the [error] of a 200 body,
    not an HTTP error.  With a call id that is not a string, 500: the
    registry cannot build its response and raises, after the tool, if
    there is one of that name, has run. *)
Theorem main_execute_tool_answers request w :
  main_execute_tool false request w = (HTTPException 503 "Agent not initialized", w) /\
  if py_truthy (match treq_tool_name request with Some v => v | None => JNull end)
  then
    match (match treq_tool_call_id request with
           | Some v => v
           | None => JStr "direct_call"
           end) with
    | JStr call_id =>
        exists r e w1,
          main_execute_tool true request w =
          (Ok (JDict [ ("tool_call_id", JStr call_id);
                       ("result", r);
                       ("error", e) ]), w1) /\
          ((populated r /\ e = JNull) \/ (r = JNull /\ exists text, e = JStr text))
    | call_id =>
        exists w1,
          main_execute_tool true request w =
          (HTTPException
             500 ("Tool execution failed: "
                  ++ fault_text (ValidationError "ToolResponse" "tool_call_id" call_id)),
           w1) /\
          forall name method o w',
            treq_tool_name request = Some (JStr name) ->
            dict_get name tools = Some method ->
            method (match treq_arguments request with
                    | Some v => v
                    | None => JDict []
                    end) w = (o, w') ->
            w1 = w'
    end
  else main_execute_tool true request w =
       (HTTPException
          500 ("Tool execution failed: "
               ++ http_exception_text 400 "tool_name is required"), w).
Proof.
  split; [reflexivity|].
  unfold main_execute_tool; cbn [negb].
  destruct (py_truthy _); cbn [negb]; [|reflexivity].
  assert (Hrefused : forall call_id,
             (forall id, call_id <> JStr id) ->
             exists w1,
               (match execute_tool
                        (match treq_tool_name request with Some v => v | None => JNull end)
                        call_id
                        (match treq_arguments request with Some v => v | None => JDict [] end)
                        w with
                | (Returned r, w1) =>
                    (Ok (JDict [ ("tool_call_id", JStr (tr_tool_call_id r));
                                 ("result", result r);
                                 ("error", json_of_text (error r)) ]), w1)
                | (Raised e, w1) => (HTTPException 500 ("Tool execution failed: " ++ e), w1)
                end) =
               (HTTPException
                  500 ("Tool execution failed: "
                       ++ fault_text (ValidationError "ToolResponse" "tool_call_id" call_id)),
                w1) /\
               forall name method o w',
                 treq_tool_name request = Some (JStr name) ->
                 dict_get name tools = Some method ->
                 method (match treq_arguments request with
                         | Some v => v
                         | None => JDict []
                         end) w = (o, w') ->
                 w1 = w').
  { intros call_id Hid.
    edestruct (execute_tool_refuses
                 (match treq_tool_name request with Some v => v | None => JNull end)
                 call_id
                 (match treq_arguments request with Some v => v | None => JDict [] end)
                 w Hid) as (w1 & E).
    exists w1; split; [rewrite E; reflexivity|].
    intros name method o w' Hname Hget Hrun.
    rewrite Hname in E.
    unfold execute_tool, find_tool, try_except, bind, ret in E; cbv beta iota in E.
    rewrite Hget, Hrun in E.
    destruct o as [r|e]; rewrite !new_ToolResponse_refuses in E by exact Hid;
      inversion E; reflexivity. }
  destruct (match treq_tool_call_id request with
            | Some v => v
            | None => JStr "direct_call"
            end) as [| b | z | m e | call_id | items | fields];
    try (apply Hrefused; intros id; discriminate).
  clear Hrefused.
  match goal with
  | |- context [execute_tool ?n _ ?a w] =>
      destruct (execute_tool_shape n call_id a w) as (r & w1 & E & Hid & Hshape)
  end.
  rewrite E, Hid.
  destruct Hshape as [[P N] | [N (t & Et)]].
  - exists (result r), JNull, w1; rewrite N; split; [reflexivity|left; split; auto].
  - exists JNull, (JStr t), w1; rewrite N, Et; split; [reflexivity|].
    right; split; [reflexivity|eexists; reflexivity].
Qed.

(** The health probes never raise: [LangGraphAgent.health_check] always
    returns its two flags; the first is true exactly when the model
    server answered the request with status 200, the second exactly when
    the index listed its collections; and the health endpoint, once the
    agent is set, always answers 200, with status [healthy] exactly when
    both flags are true. *)
Theorem health_check_never_raises w :
  main_health_check false w = (HTTPException 503 "Agent not initialized", w) /\
  exists llm store w1 w2,
    health_check w = (Returned [("llm", llm); ("vector_store", store)], w2) /\
    (llm = true <->
     exists e body, http_get (openai_compat_url ++ "/models") w = (Answered 200 e body, w1)) /\
    (store = true <-> exists c, qdrant_get_collections w1 = (Returned c, w2)) /\
    main_health_check true w =
    (Ok (JDict [ ("status", JStr (if llm && store then "healthy" else "unhealthy"));
                 ("components", JDict [("llm", JBool llm); ("vector_store", JBool store)]);
                 ("timestamp", fst (time_time w2)) ]),
     snd (time_time w2)).
Proof.
  split; [reflexivity|].
  destruct (health_check_flags w) as (llm & store & w1 & w2 & _ & _ & E & Hl & Hs).
  exists llm, store, w1, w2; split; [exact E|]; split; [exact Hl|]; split; [exact Hs|].
  unfold main_health_check; cbn [negb]; rewrite E.
  destruct (time_time w2); cbn [forallb snd map fst].
  rewrite andb_true_r; reflexivity.
Qed.

(** ** The agent over [LLMClient] and [VectorStore] *)

Lemma agent_chat_completion_fails messages w c w1 :
  (http_post_chat (openai_compat_url ++ "/chat/completions") (agent_payload messages) w =
   (HttpFailed c, w1) \/
   exists status_code body,
     http_post_chat (openai_compat_url ++ "/chat/completions") (agent_payload messages) w =
     (Answered status_code (Some c) body, w1)) ->
  @chat_completion World agent_collaborators messages w =
  (Raised ("LLM request failed: " ++ c), w1).
Proof.
  unfold agent_collaborators; cbn [chat_completion].
  unfold bind, LLMClient.chat_completion, agent_payload; cbn [or_default].
  intros [E | (status_code & body & E)]; rewrite E; reflexivity.
Qed.

(** What the agent sends to the model server for a generation, and what
    a failure of that request becomes: the request carries the messages,
    the default model, temperature 0.7 and stream off, and neither tool
    schemas nor a token limit; when it fails at the first generation (no
    connection, timeout, or a status that [raise_for_status] refuses),
    the turn ends with the answer ["Error generating response: LLM
    request failed: <cause>"], after that one request. *)
Theorem agent_request_and_transport_failure chat maxit w state_r w_r c w1 :
  @after_retrieval World agent_collaborators chat maxit w = (Returned state_r, w_r) ->
  (http_post_chat (openai_compat_url ++ "/chat/completions")
                  (agent_payload (messages state_r)) w_r = (HttpFailed c, w1) \/
   exists status_code body,
     http_post_chat (openai_compat_url ++ "/chat/completions")
                    (agent_payload (messages state_r)) w_r =
     (Answered status_code (Some c) body, w1)) ->
  @process_request World agent_collaborators chat maxit w =
  (mkRequestResult
     (Some ("Error generating response: LLM request failed: " ++ c)) (Some [])
     (messages state_r ++ [generation_error ("LLM request failed: " ++ c)])
     "success",
   w1).
Proof.
  intros Hr Hpost.
  pose proof (agent_chat_completion_fails _ _ _ _ Hpost) as Hg.
  pose proof (@after_retrieval_no_pending World agent_collaborators _ _ _ _ _ Hr)
    as Hcalls.
  assert (G : @_generate_response World agent_collaborators state_r w_r =
              (Returned (set_current_step
                           (set_messages state_r
                              (messages state_r
                               ++ [generation_error ("LLM request failed: " ++ c)]))
                           "error"), w1))
    by (rewrite generate_response_cases, Hg; reflexivity).
  rewrite (@process_request_answer World agent_collaborators _ _ _ _ _ _
             (@turn_ends_after_generation World agent_collaborators
                _ _ _ _ _ _ _ Hr G Hcalls)).
  simpl; rewrite final_answer_snoc; reflexivity.
Qed.

Lemma store_hits points texts w :
  Forall2 (fun p t => json_get "text" (sp_payload p) = Some (JStr t)) points texts ->
  exists hits typed,
    VectorStore.hits_of_points points w = (Returned hits, w) /\
    typed_hits hits = Returned typed /\
    map hit_text typed = texts.
Proof.
  induction 1 as [|p t points texts Hp _ (hits & typed & E & T & M)].
  - exists [], []; repeat split.
  - eexists (hit_entry p (JStr t) :: hits), (_ :: typed); split; [|split].
    + cbn [VectorStore.hits_of_points]; unfold bind, VectorStore.hit_of_point, subscript.
      unfold json_get in Hp; destruct (sp_payload p) eqn:P; try discriminate.
      rewrite Hp; unfold bind, ret; rewrite E.
      unfold hit_entry, json_get; rewrite P; reflexivity.
    + cbn [typed_hits hit_entry json_get dict_get String.eqb Ascii.eqb Bool.eqb].
      rewrite T; reflexivity.
    + simpl; rewrite M; reflexivity.
Qed.

(** Retrieval of the agent over [VectorStore]: the content of the last
    message is embedded, the index is searched for at most 3 points at the
    threshold 0.7, and when it returns points whose texts are strings the
    last message becomes the context block made of those texts, one per
    line in the order of the index, followed by the original content. *)
Theorem agent_retrieval_over_the_store chat maxit w q emb w1 points texts w2 :
  last_item chat = Some q ->
  VectorStore.embed_text (JStr (cm_content q)) w = (Returned emb, w1) ->
  qdrant_search VectorStore.collection_name emb 3 (JFloat 7 (-1)) w1 =
  (Returned points, w2) ->
  Forall2 (fun p t => json_get "text" (sp_payload p) = Some (JStr t)) points texts ->
  points <> [] ->
  @after_retrieval World agent_collaborators chat maxit w =
  (Returned
     (mkAgentState
        (removelast (messages (initial_state chat maxit))
         ++ [mkMessage (cm_role q)
                       (Some ("Context: " ++ join newline texts ++ newline ++ newline
                              ++ "Query: " ++ cm_content q))
                       None None])
        [] "context_retrieved" maxit 0),
   w2).
Proof.
  intros Hq Hemb Hsearch Htexts Hne.
  destruct (store_hits points texts w2 Htexts) as (hits & typed & E & T & M).
  assert (Hv : @vector_search World agent_collaborators (Some (cm_content q)) 3 w =
               (Returned typed, w2)).
  { unfold agent_collaborators; cbn [vector_search].
    unfold bind, VectorStore.search, try_except, bind, lift.
    rewrite Hemb, Hsearch, E, T; reflexivity. }
  rewrite (@after_retrieval_unfold World agent_collaborators).
  rewrite (@retrieve_context_cases World agent_collaborators).
  cbn [messages initial_state].
  rewrite last_item_map, Hq; cbn [option_map content]; rewrite Hv.
  destruct typed as [|h typed'].
  - destruct points; [contradiction|]; inversion Htexts; subst; discriminate.
  - unfold with_context, set_current_step, set_messages, set_content, but_last.
    cbn [messages tool_calls max_iterations iteration_count role content
           msg_tool_calls tool_call_id fmt_content].
    rewrite M; reflexivity.
Qed.

(** A failure of the request to the embeddings service does not reach
    the search of the index, and leaves the prompt of the agent as the
    caller gave it. *)
Theorem agent_retrieval_without_embeddings chat maxit w q c w1 :
  last_item chat = Some q ->
  http_post_json (embed_url ++ "/embed")
                 (JDict [("inputs", JList [JStr (cm_content q)])]) w =
  (HttpFailed c, w1) ->
  @after_retrieval World agent_collaborators chat maxit w =
  (Returned (mkAgentState (messages (initial_state chat maxit)) []
                          "context_retrieved" maxit 0), w1).
Proof.
  intros Hq Hpost.
  assert (Hv : @vector_search World agent_collaborators (Some (cm_content q)) 3 w =
               (Raised ("Search failed: Embedding failed: " ++ c), w1)).
  { unfold agent_collaborators; cbn [vector_search].
    unfold bind, VectorStore.search, try_except, bind, raise.
    rewrite (embed_text_request_fails _ _ _ _ Hpost); reflexivity. }
  rewrite (@after_retrieval_unfold World agent_collaborators).
  rewrite (@retrieve_context_cases World agent_collaborators).
  cbn [messages initial_state].
  rewrite last_item_map, Hq; cbn [option_map content]; rewrite Hv; reflexivity.
Qed.

End EndpointProperties.

(** * More concrete runs *)

Module MoreScenarios.
Import Demo.
Import DemoServices.

(** A delete with no path does not fit the schema of [file_operations]:
    it is refused and the world is untouched. *)
Lemma misfit_arguments_witness :
  exists e,
    execute_tool (JStr "file_operations") (JStr "c1")
                 (JDict [("operation", JStr "delete")]) gateway_down =
    (Returned (mkToolResponse "c1" JNull (Some e)), gateway_down).
Proof.
  apply (misfit_arguments_never_run_the_tool (nth 4 get_tool_schemas JNull));
    [simpl; tauto | reflexivity | reflexivity].
Defined.

(** A lookup of a key fits the schema of [get_map]: it gives a result. *)
Lemma fitting_arguments_witness :
  exists r w',
    execute_tool (JStr "get_map") (JStr "c1") (JDict [("key", JStr "engine_params")])
                 gateway_down =
    (Returned (mkToolResponse "c1" r None), w') /\ populated r.
Proof.
  apply (fitting_arguments_give_a_result (nth 0 get_tool_schemas JNull));
    [simpl; tauto | reflexivity | reflexivity | intros _; eexists; reflexivity].
Defined.

(** With no budget, a model that asks for a tool gets none. *)
Lemma zero_budget_witness :
  exists state_r w_r final w' a,
    after_retrieval [user "Hello"] 0
      (world [] (asks "" [call "c1" "get_map" "{key: engine_params}"]) (Returned [])) =
    (Returned state_r, w_r) /\
    ainvoke (initial_state [user "Hello"] 0)
      (world [] (asks "" [call "c1" "get_map" "{key: engine_params}"]) (Returned [])) =
    (Finished final, [analyze; retrieve; generate_response; finalize], w') /\
    messages final = (messages state_r ++ [a])%list /\
    role a = "assistant" /\
    iteration_count final = 0.
Proof.
  apply (zero_budget_runs_no_tool [user "Hello"] 0); lia.
Defined.

(** After a tool cycle the gateway fails: the run ends with the error
    text as the answer, after the message of the tool. *)
Lemma gateway_failure_after_tools_witness :
  snd (fst
    (run_graph 2 generate_response
       (mkAgentState
          [mkMessage "user" (Some "What is the rpm?") None None;
           mkMessage "assistant" (Some "") (Some [mkToolCall (Some "c1") None]) None;
           mkMessage "tool" (Some "Tool execution error: 'function'") None (Some "c1")]
          [] "tools_executed" 3 1)
       [analyze; retrieve; generate_response; execute_tools]
       (world [] (Raised "LLM request failed: timeout") (Returned [])))) =
  [analyze; retrieve; generate_response; execute_tools; generate_response; finalize].
Proof.
  rewrite (proj1 (@gateway_failure_after_tools_ends_the_turn
                    DemoWorld demo_collaborators
                    (mkAgentState
                       [mkMessage "user" (Some "What is the rpm?") None None;
                        mkMessage "assistant" (Some "")
                                  (Some [mkToolCall (Some "c1") None]) None]
                       [mkToolCall (Some "c1") None] "response_generated" 3 0)
                    (world [] (Raised "LLM request failed: timeout") (Returned []))
                    (mkAgentState
                       [mkMessage "user" (Some "What is the rpm?") None None;
                        mkMessage "assistant" (Some "")
                                  (Some [mkToolCall (Some "c1") None]) None;
                        mkMessage "tool" (Some "Tool execution error: 'function'")
                                  None (Some "c1")]
                       [] "tools_executed" 3 1)
                    (world [] (Raised "LLM request failed: timeout") (Returned []))
                    "LLM request failed: timeout"
                    (mkDemoWorld
                       [] (Raised "LLM request failed: timeout")
                       [[mkMessage "user" (Some "What is the rpm?") None None;
                         mkMessage "assistant" (Some "")
                                   (Some [mkToolCall (Some "c1") None]) None;
                         mkMessage "tool" (Some "Tool execution error: 'function'")
                                   None (Some "c1")]]
                       (Returned []) 0 [])
                    0%nat [analyze; retrieve; generate_response; execute_tools]
                    ltac:(vm_compute; reflexivity) ltac:(vm_compute; reflexivity))).
  reflexivity.
Defined.

(** A search over an index that returns two points. *)
Lemma search_witness :
  exists hits,
    @VectorStore.search DemoWorld demo_collaborators
       (services (HttpFailed "down") embedded
                 (Returned [point 1 "rpm: 2500"; point 2 "pressure: 2.3"]))
       (JStr "What is the rpm?") 3 (JFloat 7 (-1)) gateway_down =
    (Returned hits, gateway_down) /\
    Forall2 (fun p h => exists t, json_get "text" (sp_payload p) = Some t /\
                                  h = hit_entry p t)
            [point 1 "rpm: 2500"; point 2 "pressure: 2.3"] hits.
Proof.
  refine (proj1 (@search_returns_one_entry_per_point
                   DemoWorld demo_collaborators
                   (services (HttpFailed "down") embedded
                             (Returned [point 1 "rpm: 2500"; point 2 "pressure: 2.3"]))
                   (JStr "What is the rpm?") 3 (JFloat 7 (-1)) gateway_down
                   (JList [JFloat 1 (-1); JFloat 2 (-1)]) gateway_down
                   [point 1 "rpm: 2500"; point 2 "pressure: 2.3"] gateway_down
                   ltac:(vm_compute; reflexivity) ltac:(reflexivity)) _).
  repeat constructor; eexists; reflexivity.
Defined.

(** The model server cannot be reached, nor the embeddings service. *)
Lemma transport_failure_witness :
  (let x := @process_request DemoWorld
              (@agent_collaborators DemoWorld demo_collaborators
                 (services (HttpFailed "All connection attempts failed")
                           (HttpFailed "All connection attempts failed") (Returned [])))
              [user "Hello"] 3 gateway_down in
   (status (fst x), response (fst x))) =
  ("success",
   Some "Error generating response: LLM request failed: All connection attempts failed").
Proof.
  rewrite (@agent_request_and_transport_failure
             DemoWorld demo_collaborators
             (services (HttpFailed "All connection attempts failed")
                       (HttpFailed "All connection attempts failed") (Returned []))
             [user "Hello"] 3 gateway_down
             (mkAgentState [mkMessage "user" (Some "Hello") None None] []
                           "context_retrieved" 3 0)
             gateway_down "All connection attempts failed" gateway_down
             ltac:(vm_compute; reflexivity) ltac:(left; reflexivity)).
  reflexivity.
Defined.

(** The agent over the store: two passages in front of the question. *)
Lemma retrieval_over_the_store_witness :
  fst (@after_retrieval DemoWorld
         (@agent_collaborators DemoWorld demo_collaborators
            (services (HttpFailed "down") embedded
                      (Returned [point 1 "rpm: 2500"; point 2 "pressure: 2.3"])))
         [user "What is the rpm?"] 3 gateway_down) =
  Returned (mkAgentState
              [mkMessage "user"
                         (Some ("Context: rpm: 2500" ++ newline ++ "pressure: 2.3"
                                ++ newline ++ newline ++ "Query: What is the rpm?"))
                         None None]
              [] "context_retrieved" 3 0).
Proof.
  rewrite (@agent_retrieval_over_the_store
             DemoWorld demo_collaborators
             (services (HttpFailed "down") embedded
                       (Returned [point 1 "rpm: 2500"; point 2 "pressure: 2.3"]))
             [user "What is the rpm?"] 3 gateway_down (user "What is the rpm?")
             (JList [JFloat 1 (-1); JFloat 2 (-1)]) gateway_down
             [point 1 "rpm: 2500"; point 2 "pressure: 2.3"]
             ["rpm: 2500"; "pressure: 2.3"] gateway_down
             ltac:(reflexivity) ltac:(vm_compute; reflexivity) ltac:(reflexivity)
             ltac:(repeat constructor) ltac:(discriminate)).
  reflexivity.
Defined.

(** The embeddings service is down: the prompt stays as given. *)
Lemma retrieval_without_embeddings_witness :
  fst (@after_retrieval DemoWorld
         (@agent_collaborators DemoWorld demo_collaborators
            (services (HttpFailed "down") (HttpFailed "connection refused")
                      (Returned [point 1 "rpm: 2500"])))
         [user "What is the rpm?"] 3 gateway_down) =
  Returned (mkAgentState [mkMessage "user" (Some "What is the rpm?") None None]
                         [] "context_retrieved" 3 0).
Proof.
  rewrite (@agent_retrieval_without_embeddings
             DemoWorld demo_collaborators
             (services (HttpFailed "down") (HttpFailed "connection refused")
                       (Returned [point 1 "rpm: 2500"]))
             [user "What is the rpm?"] 3 gateway_down (user "What is the rpm?")
             "connection refused" gateway_down
             ltac:(reflexivity) ltac:(reflexivity)).
  reflexivity.
Defined.

End MoreScenarios.
